(** * The mDNS host responder of plugins/mdns/mdnsserver.cpp

    A shallow embedding of [MdnsServer]: the hostname claim and conflict
    state machine ([onSocketTimeout], [onHostnameTimeout], [onReadyRead]),
    the record generator ([generateRecord]) and the query responder
    ([onMessageReceived]).  The handlers run on one thread, one at a time,
    so each is a function from the server object to the new server object
    and the list of calls it made to the outside (datagrams written,
    multicast groups joined, errors signalled). *)

From Stdlib Require Import ZArith List Bool Lia.
From Stdlib Require Import Ascii String DecimalString.
Import ListNotations.
Local Open Scope string_scope.
Local Open Scope list_scope.
Local Open Scope Z_scope.

(** ** Qt value types *)

(** [QAbstractSocket::NetworkLayerProtocol], as far as the server tests it. *)
Inductive NetworkLayerProtocol : Type :=
| IPv4Protocol
| IPv6Protocol
| UnknownNetworkLayerProtocol.

Definition NetworkLayerProtocol_eqb (p q : NetworkLayerProtocol) : bool :=
  match p, q with
  | IPv4Protocol, IPv4Protocol => true
  | IPv6Protocol, IPv6Protocol => true
  | UnknownNetworkLayerProtocol, UnknownNetworkLayerProtocol => true
  | _, _ => false
  end.

(** [QHostAddress]: a 32-bit IPv4 address, a 128-bit IPv6 address, or the
    null address. *)
Inductive QHostAddress : Type :=
| Ipv4 (a : Z)
| Ipv6 (a : Z)
| NullAddress.

Module QHostAddress.

Definition protocol (h : QHostAddress) : NetworkLayerProtocol :=
  match h with
  | Ipv4 _ => IPv4Protocol
  | Ipv6 _ => IPv6Protocol
  | NullAddress => UnknownNetworkLayerProtocol
  end.

(** [QHostAddress::isInSubnet(subnet, netmask)]: both addresses are of the
    same family and agree on their leading [netmask] bits (the prefix
    length is capped at the width of the family; a negative one matches
    nothing). *)
Definition isInSubnet (h subnet : QHostAddress) (netmask : Z) : bool :=
  match h, subnet with
  | Ipv4 x, Ipv4 y =>
      (0 <=? netmask) &&
      (Z.shiftr x (32 - Z.min netmask 32) =? Z.shiftr y (32 - Z.min netmask 32))
  | Ipv6 x, Ipv6 y =>
      (0 <=? netmask) &&
      (Z.shiftr x (128 - Z.min netmask 128) =? Z.shiftr y (128 - Z.min netmask 128))
  | _, _ => false
  end.

End QHostAddress.

(** [QNetworkAddressEntry]: an address of an interface with its prefix
    length. *)
Module QNetworkAddressEntry.
Record t : Type := mk { ip : QHostAddress; prefixLength : Z }.
End QNetworkAddressEntry.

(** [QNetworkInterface]: the flag word and the address entries of one
    interface. *)
Module QNetworkInterface.

Record t : Type := mk {
  name : string;
  flags : Z;
  addressEntries : list QNetworkAddressEntry.t
}.

(** The [InterfaceFlag] bits. *)
Definition IsUp : Z := 1.
Definition IsRunning : Z := 2.
Definition CanBroadcast : Z := 4.
Definition IsLoopBack : Z := 8.
Definition IsPointToPoint : Z := 16.
Definition CanMulticast : Z := 32.

End QNetworkInterface.

(** ** QString::arg

    [QString::arg(a)] replaces every occurrence of the lowest numbered place
    marker ([%1] .. [%99], with an optional [L] after the percent sign) by
    [a]; when the string has no place marker it is returned as it is.  The
    inserted text is not scanned again by the same call, but it is by the
    next call of a chain. *)
Module QString.

Inductive Piece : Type :=
| Lit (c : ascii)
| Escape (n : nat) (raw : string).

Definition digitValue (c : ascii) : option nat :=
  let n := nat_of_ascii c in
  if (Nat.leb 48 n && Nat.leb n 57)%bool then Some (n - 48)%nat else None.

(** The marker that starts right after a percent sign: its number and how
    many characters it takes after the percent sign. *)
Definition parseDigits (s : string) : option (nat * nat) :=
  match s with
  | String d1 rest =>
      match digitValue d1 with
      | None => None
      | Some v1 =>
          match rest with
          | String d2 _ =>
              match digitValue d2 with
              | Some v2 => Some ((10 * v1 + v2)%nat, 2%nat)
              | None => Some (v1, 1%nat)
              end
          | EmptyString => Some (v1, 1%nat)
          end
      end
  | EmptyString => None
  end.

Definition parseEscape (s : string) : option (nat * nat) :=
  match s with
  | String "L"%char rest =>
      match parseDigits rest with
      | Some (n, len) => Some (n, S len)
      | None => None
      end
  | _ => parseDigits s
  end.

(** One pass over the string; [skip] counts the characters of a marker
    that are still to be passed over. *)
Fixpoint scan (skip : nat) (s : string) : list Piece :=
  match s with
  | EmptyString => []
  | String c rest =>
      match skip with
      | S k => scan k rest
      | O =>
          if Ascii.eqb c "%"%char then
            match parseEscape rest with
            | Some (n, len) => Escape n (substring 0 (S len) s) :: scan len rest
            | None => Lit c :: scan 0 rest
            end
          else Lit c :: scan 0 rest
      end
  end.

Definition optMin (a : option nat) (n : nat) : option nat :=
  match a with
  | None => Some n
  | Some m => Some (Nat.min m n)
  end.

Fixpoint minEscape (acc : option nat) (ps : list Piece) : option nat :=
  match ps with
  | [] => acc
  | Lit _ :: rest => minEscape acc rest
  | Escape n _ :: rest => minEscape (optMin acc n) rest
  end.

Fixpoint replace (m : nat) (a : string) (ps : list Piece) : string :=
  match ps with
  | [] => EmptyString
  | Lit c :: rest => String c (replace m a rest)
  | Escape n raw :: rest =>
      ((if Nat.eqb n m then a else raw) ++ replace m a rest)%string
  end.

Definition arg (s a : string) : string :=
  let ps := scan 0 s in
  match minEscape None ps with
  | None => s
  | Some m => replace m a ps
  end.

(** [QString::number] in base 10, which [arg(int)] inserts. *)
Definition number (n : Z) : string := NilZero.string_of_int (Z.to_int n).

Definition argInt (s : string) (n : Z) : string := arg s (number n).

(** The pieces of a string that has no place marker. *)
Fixpoint lits (s : string) : list Piece :=
  match s with
  | EmptyString => []
  | String c rest => Lit c :: lits rest
  end.

(** A string without a percent sign has no place marker. *)
Fixpoint noPercent (s : string) : bool :=
  match s with
  | EmptyString => true
  | String c rest => negb (Ascii.eqb c "%"%char) && noPercent rest
  end.

End QString.

(** ** The mDNS types (mdns.h, mdnsquery.h, mdnsrecord.h, mdnsmessage.h)

    These headers are not part of the sources at hand; the server uses their
    types through accessors only. *)
Module Mdns.

Inductive Protocol : Type := IPv4 | IPv6.

Definition Protocol_eqb (p q : Protocol) : bool :=
  match p, q with
  | IPv4, IPv4 => true
  | IPv6, IPv6 => true
  | _, _ => false
  end.

(** Modelled from the spec: [Mdns::Port] of mdns.h, which is not at hand;
    the fixed UDP port for all mDNS traffic, 5353. *)
Definition Port : Z := 5353.

(** Modelled from the spec: [Mdns::Ipv4Address] of mdns.h, which is not at
    hand; the IPv4 multicast group address of mDNS, 224.0.0.251. *)
Definition Ipv4Address : QHostAddress := Ipv4 0xE00000FB.

(** Modelled from the spec: [Mdns::Ipv6Address] of mdns.h, which is not at
    hand; the IPv6 multicast group address of mDNS, ff02::fb. *)
Definition Ipv6Address : QHostAddress := Ipv6 (Z.shiftl 0xFF02 112 + 0xFB).

(** Modelled from the spec: [Mdns::A] of mdns.h, which is not at hand; the
    type of an IPv4 address record, 1 in DNS. *)
Definition A : Z := 1.

(** Modelled from the spec: [Mdns::AAAA] of mdns.h, which is not at hand;
    the type of an IPv6 address record, 28 in DNS. *)
Definition AAAA : Z := 28.

End Mdns.

Module MdnsQuery.
Record t : Type := mk { name : string; type : Z }.
End MdnsQuery.

Module MdnsRecord.
Record t : Type := mk {
  name : string;
  type : Z;
  ttl : Z;
  address : QHostAddress
}.
End MdnsRecord.

Module MdnsMessage.

Record t : Type := mk {
  address : QHostAddress;
  protocol : Mdns.Protocol;
  port : Z;
  isResponse : bool;
  queries : list MdnsQuery.t;
  records : list MdnsRecord.t
}.

Definition setAddress (a : QHostAddress) (m : t) : t :=
  mk a (protocol m) (port m) (isResponse m) (queries m) (records m).
Definition setProtocol (p : Mdns.Protocol) (m : t) : t :=
  mk (address m) p (port m) (isResponse m) (queries m) (records m).
Definition setPort (p : Z) (m : t) : t :=
  mk (address m) (protocol m) p (isResponse m) (queries m) (records m).
Definition addQuery (q : MdnsQuery.t) (m : t) : t :=
  mk (address m) (protocol m) (port m) (isResponse m) (queries m ++ [q]) (records m).
Definition addRecord (r : MdnsRecord.t) (m : t) : t :=
  mk (address m) (protocol m) (port m) (isResponse m) (queries m) (records m ++ [r]).

(** Modelled from the spec: the default constructor of MdnsMessage
    (mdnsmessage.cpp is not at hand).  An outbound message is built fresh;
    a probe made from it is a query-only message with no answer section:
    the fresh message is not a response and has no query and no record. *)
Definition fresh : t := mk NullAddress Mdns.IPv4 0 false [] [].

(** Modelled from the spec: MdnsMessage::reply (mdnsmessage.cpp is not at
    hand), the operation that builds the reply envelope from a request: a
    response for the asker, over the protocol of the request, that carries
    no record yet. *)
Definition reply (m : t) : t :=
  mk (address m) (protocol m) (port m) true [] [].

End MdnsMessage.

(** ** The server object and the world around it *)

Inductive SocketState : Type := UnconnectedState | BoundState.

Definition SocketState_eqb (a b : SocketState) : bool :=
  match a, b with
  | UnconnectedState, UnconnectedState => true
  | BoundState, BoundState => true
  | _, _ => false
  end.

(** A single-shot [QTimer]: inactive, or active with the milliseconds left
    until it fires.  [start] on an active timer replaces what was left. *)
Module QTimer.
Definition t : Type := option Z.
Definition inactive : t := None.
Definition start (msec : Z) : t := Some msec.
Definition elapse (msec : Z) (timer : t) : t :=
  match timer with
  | Some remaining => Some (Z.max 0 (remaining - msec))
  | None => None
  end.
End QTimer.

(** Modelled from the spec: the members that mdnsserver.h declares, which is
    not at hand, with the types under which mdnsserver.cpp uses them; the
    counter [mHostnameSuffix] is, as the spec has it, a number with no upper
    bound. *)
Record MdnsServer : Type := mkMdnsServer {
  mSocketTimer : QTimer.t;
  mHostnameTimer : QTimer.t;
  mIpv4Socket : SocketState;
  mIpv6Socket : SocketState;
  mHostname : string;
  mHostnameConfirmed : bool;
  mHostnameSuffix : Z
}.

Definition set_mSocketTimer (v : QTimer.t) (s : MdnsServer) : MdnsServer :=
  mkMdnsServer v (mHostnameTimer s) (mIpv4Socket s) (mIpv6Socket s)
    (mHostname s) (mHostnameConfirmed s) (mHostnameSuffix s).
Definition set_mHostnameTimer (v : QTimer.t) (s : MdnsServer) : MdnsServer :=
  mkMdnsServer (mSocketTimer s) v (mIpv4Socket s) (mIpv6Socket s)
    (mHostname s) (mHostnameConfirmed s) (mHostnameSuffix s).
Definition set_mIpv4Socket (v : SocketState) (s : MdnsServer) : MdnsServer :=
  mkMdnsServer (mSocketTimer s) (mHostnameTimer s) v (mIpv6Socket s)
    (mHostname s) (mHostnameConfirmed s) (mHostnameSuffix s).
Definition set_mIpv6Socket (v : SocketState) (s : MdnsServer) : MdnsServer :=
  mkMdnsServer (mSocketTimer s) (mHostnameTimer s) (mIpv4Socket s) v
    (mHostname s) (mHostnameConfirmed s) (mHostnameSuffix s).
Definition set_mHostname (v : string) (s : MdnsServer) : MdnsServer :=
  mkMdnsServer (mSocketTimer s) (mHostnameTimer s) (mIpv4Socket s) (mIpv6Socket s)
    v (mHostnameConfirmed s) (mHostnameSuffix s).
Definition set_mHostnameConfirmed (v : bool) (s : MdnsServer) : MdnsServer :=
  mkMdnsServer (mSocketTimer s) (mHostnameTimer s) (mIpv4Socket s) (mIpv6Socket s)
    (mHostname s) v (mHostnameSuffix s).
Definition set_mHostnameSuffix (v : Z) (s : MdnsServer) : MdnsServer :=
  mkMdnsServer (mSocketTimer s) (mHostnameTimer s) (mIpv4Socket s) (mIpv6Socket s)
    (mHostname s) (mHostnameConfirmed s) v.

Definition set_socketOf (p : Mdns.Protocol) (v : SocketState) : MdnsServer -> MdnsServer :=
  match p with
  | Mdns.IPv4 => set_mIpv4Socket v
  | Mdns.IPv6 => set_mIpv6Socket v
  end.

(** The text of an [error] signal. *)
Inductive ErrorText : Type :=
| strerror_errno
| errorString (socket : Mdns.Protocol).

(** What a handler does to the outside: [writeDatagram] on one of the two
    sockets (the packet is the encoding of [message], sent to the address
    and port of [message]), [joinMulticastGroup] on one of the two sockets,
    and the [error] signal. *)
Inductive Effect : Type :=
| writeDatagram (socket : Mdns.Protocol) (message : MdnsMessage.t)
| joinMulticastGroup (socket : Mdns.Protocol) (group : QHostAddress)
    (interface : QNetworkInterface.t)
| error (text : ErrorText).

(** What the operating system answers while one handler runs: the host name,
    the interfaces, and the outcome of the calls that bind a socket.

    [allAddresses] is [QNetworkInterface::allAddresses()].  It is a static
    member of [QNetworkInterface]: called through an interface object, as
    the server does, it still lists the addresses of the whole host, not the
    ones of that interface (those are its [addressEntries]). *)
Record Env : Type := mkEnv {
  localHostName : string;
  allInterfaces : list QNetworkInterface.t;
  allAddresses : list QHostAddress;
  Q_OS_UNIX : bool;
  bindShareAddress : Mdns.Protocol -> bool;
  setsockoptFails : Mdns.Protocol -> bool;
  bindReuseAddressHint : Mdns.Protocol -> bool
}.

(** A datagram read from a socket: where it came from, and the message that
    [Mdns::fromPacket] decodes from it, if it decodes. *)
Record Datagram : Type := mkDatagram {
  sourceAddress : QHostAddress;
  sourcePort : Z;
  fromPacket : option MdnsMessage.t
}.

(** ** Handlers: the server object threaded through, the effects collected *)

Definition M (A : Type) : Type := MdnsServer -> A * MdnsServer * list Effect.

Definition ret {A : Type} (a : A) : M A := fun s => (a, s, []).

Definition bind {A B : Type} (m : M A) (f : A -> M B) : M B :=
  fun s =>
    let '(a, s1, e1) := m s in
    let '(b, s2, e2) := f a s1 in
    (b, s2, e1 ++ e2).

Definition get : M MdnsServer := fun s => (s, s, []).
Definition modify (f : MdnsServer -> MdnsServer) : M unit := fun s => (tt, f s, []).
Definition emit (e : Effect) : M unit := fun s => (tt, s, [e]).
Definition when (b : bool) (m : M unit) : M unit := if b then m else ret tt.

Declare Scope m_scope.
Delimit Scope m_scope with M.
Notation "x <- m ;; k" := (bind m (fun x => k))
  (at level 61, m at next level, right associativity) : m_scope.
Notation "m ;; k" := (bind m (fun _ => k))
  (at level 61, right associativity) : m_scope.
Local Open Scope m_scope.

Fixpoint foreach {A : Type} (l : list A) (body : A -> M unit) : M unit :=
  match l with
  | [] => ret tt
  | x :: rest => body x ;; foreach rest body
  end.

Definition stateOf {A : Type} (r : A * MdnsServer * list Effect) : MdnsServer :=
  snd (fst r).
Definition effectsOf {A : Type} (r : A * MdnsServer * list Effect) : list Effect :=
  snd r.

(** ** MdnsServer *)

Definition DefaultTtl : Z := 60 * 60.

(** The state of the object while its constructor runs, before the first
    [onSocketTimeout]: the constructor initialises [mHostnameConfirmed]
    only, so the counter holds whatever [indeterminate] value. *)
Definition constructed (indeterminate : Z) : MdnsServer :=
  mkMdnsServer QTimer.inactive QTimer.inactive UnconnectedState UnconnectedState
    "" false indeterminate.

Definition sendMessage (message : MdnsMessage.t) : M unit :=
  when (Mdns.Protocol_eqb (MdnsMessage.protocol message) Mdns.IPv4)
    (emit (writeDatagram Mdns.IPv4 message)) ;;
  when (Mdns.Protocol_eqb (MdnsMessage.protocol message) Mdns.IPv6)
    (emit (writeDatagram Mdns.IPv6 message)).

(** The test of the innermost loop of [generateRecord]: the family of the
    address (the loop variable that hides the parameter of the same name)
    against the requested type. *)
Definition familyMatches (address : QHostAddress) (type : Z) : bool :=
  (NetworkLayerProtocol_eqb (QHostAddress.protocol address) IPv4Protocol
     && (type =? Mdns.A))
  || (NetworkLayerProtocol_eqb (QHostAddress.protocol address) IPv6Protocol
     && (type =? Mdns.AAAA)).

(** The loop over [interface.allAddresses()]: [Some] is [return true] with
    the record filled in, [None] is the loop running to its end. *)
Fixpoint generateRecord_addresses (hostname : string) (type : Z)
    (entry : QNetworkAddressEntry.t) (addresses : list QHostAddress)
    : option MdnsRecord.t :=
  match addresses with
  | [] => None
  | address :: rest =>
      if familyMatches address type then
        Some (MdnsRecord.mk hostname type DefaultTtl (QNetworkAddressEntry.ip entry))
      else generateRecord_addresses hostname type entry rest
  end.

(** The loop over [interface.addressEntries()]: at the first entry whose
    subnet holds [address] the addresses are scanned and, when that scan
    returns nothing, the [break] leaves this loop (and this loop only). *)
Fixpoint generateRecord_entries (env : Env) (hostname : string)
    (address : QHostAddress) (type : Z) (entries : list QNetworkAddressEntry.t)
    : option MdnsRecord.t :=
  match entries with
  | [] => None
  | entry :: rest =>
      if QHostAddress.isInSubnet address (QNetworkAddressEntry.ip entry)
           (QNetworkAddressEntry.prefixLength entry)
      then generateRecord_addresses hostname type entry (allAddresses env)
      else generateRecord_entries env hostname address type rest
  end.

Fixpoint generateRecord_interfaces (env : Env) (hostname : string)
    (address : QHostAddress) (type : Z) (interfaces : list QNetworkInterface.t)
    : option MdnsRecord.t :=
  match interfaces with
  | [] => None
  | interface :: rest =>
      match generateRecord_entries env hostname address type
              (QNetworkInterface.addressEntries interface) with
      | Some record => Some record
      | None => generateRecord_interfaces env hostname address type rest
      end
  end.

(** [generateRecord]: [Some record] when the function returns true having
    filled [record] in, [None] when it returns false. *)
Definition generateRecord (env : Env) (s : MdnsServer) (address : QHostAddress)
    (type : Z) : option MdnsRecord.t :=
  generateRecord_interfaces env (mHostname s) address type (allInterfaces env).

Definition AnyIPv4 : QHostAddress := Ipv4 0.
Definition AnyIPv6 : QHostAddress := Ipv6 0.

(** [bindSocket]: [socket] names which of the two sockets is passed. *)
Definition bindSocket (env : Env) (socket : Mdns.Protocol) (address : QHostAddress)
    : M unit :=
  let secondBind : M unit :=
    if bindReuseAddressHint env socket
    then modify (set_socketOf socket BoundState)
    else emit (error (errorString socket)) in
  if Q_OS_UNIX env then
    if bindShareAddress env socket
    then modify (set_socketOf socket BoundState)
    else
      when (setsockoptFails env socket) (emit (error strerror_errno)) ;;
      secondBind
  else secondBind.

Definition checkHostname (protocol : Mdns.Protocol) : M unit :=
  s <- get ;;
  let query :=
    MdnsQuery.mk (mHostname s)
      (match protocol with Mdns.IPv4 => Mdns.A | Mdns.IPv6 => Mdns.AAAA end) in
  let message :=
    MdnsMessage.addQuery query
      (MdnsMessage.setPort Mdns.Port
         (MdnsMessage.setProtocol protocol
            (MdnsMessage.setAddress
               (match protocol with
                | Mdns.IPv4 => Mdns.Ipv4Address
                | Mdns.IPv6 => Mdns.Ipv6Address
                end)
               MdnsMessage.fresh))) in
  sendMessage message.

Definition canMulticast (interface : QNetworkInterface.t) : bool :=
  negb (Z.land (QNetworkInterface.flags interface) QNetworkInterface.CanMulticast =? 0).

(** The two flags that the loop over [interface.allAddresses()] of
    [onSocketTimeout] computes. *)
Definition scanFamily (p : NetworkLayerProtocol) (addresses : list QHostAddress) : bool :=
  fold_left
    (fun found address =>
       found || NetworkLayerProtocol_eqb (QHostAddress.protocol address) p)
    addresses false.

Definition onSocketTimeout (env : Env) : M unit :=
  s <- get ;;
  when (negb (SocketState_eqb (mIpv4Socket s) BoundState))
    (bindSocket env Mdns.IPv4 AnyIPv4) ;;
  s <- get ;;
  when (negb (SocketState_eqb (mIpv6Socket s) BoundState))
    (bindSocket env Mdns.IPv6 AnyIPv6) ;;
  s <- get ;;
  let ipv4Bound := SocketState_eqb (mIpv4Socket s) BoundState in
  let ipv6Bound := SocketState_eqb (mIpv6Socket s) BoundState in
  when (ipv4Bound || ipv6Bound)
    (foreach (allInterfaces env) (fun interface =>
       when (canMulticast interface)
         (let ipv4Address := scanFamily IPv4Protocol (allAddresses env) in
          let ipv6Address := scanFamily IPv6Protocol (allAddresses env) in
          when (ipv4Bound && ipv6Address)
            (emit (joinMulticastGroup Mdns.IPv4 Mdns.Ipv4Address interface)) ;;
          when (ipv6Bound && ipv6Address)
            (emit (joinMulticastGroup Mdns.IPv6 Mdns.Ipv6Address interface)))) ;;
     s <- get ;;
     when (negb (mHostnameConfirmed s))
       (modify (set_mHostname (localHostName env ++ ".local.")) ;;
        modify (set_mHostnameSuffix 2) ;;
        checkHostname Mdns.IPv4 ;;
        checkHostname Mdns.IPv6 ;;
        modify (set_mHostnameTimer (QTimer.start (2 * 1000))))) ;;
  modify (set_mSocketTimer (QTimer.start (60 * 1000))).

Definition onHostnameTimeout : M unit :=
  modify (set_mHostnameConfirmed true).

(** The two flags that the loop over the queries of [onMessageReceived]
    computes. *)
Definition scanQueries (hostname : string) (type : Z) (queries : list MdnsQuery.t) : bool :=
  fold_left
    (fun found query =>
       if String.eqb (MdnsQuery.name query) hostname
       then found || (MdnsQuery.type query =? type)
       else found)
    queries false.

Definition onMessageReceived (env : Env) (message : MdnsMessage.t) : M unit :=
  when (negb (MdnsMessage.isResponse message))
    (s <- get ;;
     let queryA := scanQueries (mHostname s) Mdns.A (MdnsMessage.queries message) in
     let queryAAAA := scanQueries (mHostname s) Mdns.AAAA (MdnsMessage.queries message) in
     when (queryA || queryAAAA)
       (let reply := MdnsMessage.reply message in
        let reply :=
          match (if queryA
                 then generateRecord env s (MdnsMessage.address message) Mdns.A
                 else None) with
          | Some ipv4Record => MdnsMessage.addRecord ipv4Record reply
          | None => reply
          end in
        let reply :=
          match (if queryAAAA
                 then generateRecord env s (MdnsMessage.address message) Mdns.AAAA
                 else None) with
          | Some ipv6Record => MdnsMessage.addRecord ipv6Record reply
          | None => reply
          end in
        when (negb (Nat.eqb (List.length (MdnsMessage.records reply)) 0))
          (sendMessage reply))).

(** The test that makes a record of a response a conflict. *)
Definition disqualifies (hostname : string) (record : MdnsRecord.t) : bool :=
  ((MdnsRecord.type record =? Mdns.A) || (MdnsRecord.type record =? Mdns.AAAA))
  && String.eqb (MdnsRecord.name record) hostname
  && negb (MdnsRecord.ttl record =? 0).

(** The loop over the records of a response in [onReadyRead], with its
    [break] after the first record that disqualifies the name. *)
Fixpoint onReadyRead_records (env : Env) (records : list MdnsRecord.t) : M unit :=
  match records with
  | [] => ret tt
  | record :: rest =>
      s <- get ;;
      if disqualifies (mHostname s) record then
        let suffix := QString.argInt "-%1" (mHostnameSuffix s) in
        modify (set_mHostnameSuffix (mHostnameSuffix s + 1)) ;;
        modify (set_mHostname
                  (QString.arg (QString.arg "%1%2.local." (localHostName env)) suffix)) ;;
        checkHostname Mdns.IPv4 ;;
        checkHostname Mdns.IPv6
      else onReadyRead_records env rest
  end.

(** [onReadyRead]; the [messageReceived] signal is connected to
    [onMessageReceived] of the same object, which so runs before the
    handler returns. *)
Definition onReadyRead (env : Env) (d : Datagram) : M unit :=
  match fromPacket d with
  | Some decoded =>
      let message :=
        MdnsMessage.setPort (sourcePort d)
          (MdnsMessage.setProtocol
             (if NetworkLayerProtocol_eqb (QHostAddress.protocol (sourceAddress d))
                   IPv4Protocol
              then Mdns.IPv4 else Mdns.IPv6)
             (MdnsMessage.setAddress (sourceAddress d) decoded)) in
      s <- get ;;
      if mHostnameConfirmed s then onMessageReceived env message
      else if MdnsMessage.isResponse message
           then onReadyRead_records env (MdnsMessage.records message)
           else ret tt
  | None => ret tt
  end.

(** The constructor: the fields initialised, then a first [onSocketTimeout]. *)
Definition MdnsServer_new (env : Env) (indeterminate : Z)
    : unit * MdnsServer * list Effect :=
  onSocketTimeout env (constructed indeterminate).

(** ** The event loop

    What can happen to the server once constructed: one of its two
    single-shot timers fires (a timer that fires is inactive when its slot
    runs), a datagram is ready on one of the sockets, or time passes. *)
Inductive Event : Type :=
| SocketTimerFires (env : Env)
| HostnameTimerFires
| DatagramReady (env : Env) (d : Datagram)
| TimePasses (msec : Z).

Definition handle (ev : Event) : M unit :=
  match ev with
  | SocketTimerFires env =>
      modify (set_mSocketTimer QTimer.inactive) ;; onSocketTimeout env
  | HostnameTimerFires =>
      modify (set_mHostnameTimer QTimer.inactive) ;; onHostnameTimeout
  | DatagramReady env d => onReadyRead env d
  | TimePasses msec =>
      modify (fun s =>
        set_mHostnameTimer (QTimer.elapse msec (mHostnameTimer s))
          (set_mSocketTimer (QTimer.elapse msec (mSocketTimer s)) s))
  end.

Definition run (evs : list Event) : M unit := foreach evs handle.

(** ** Notions used to state the properties *)

(** The message that [checkHostname protocol] builds for [hostname]. *)
Definition probe (protocol : Mdns.Protocol) (hostname : string) : MdnsMessage.t :=
  MdnsMessage.mk
    (match protocol with
     | Mdns.IPv4 => Mdns.Ipv4Address
     | Mdns.IPv6 => Mdns.Ipv6Address
     end)
    protocol Mdns.Port false
    [MdnsQuery.mk hostname
       (match protocol with Mdns.IPv4 => Mdns.A | Mdns.IPv6 => Mdns.AAAA end)]
    [].

(** The two datagrams of a probe round for [hostname]. *)
Definition probes (hostname : string) : list Effect :=
  [writeDatagram Mdns.IPv4 (probe Mdns.IPv4 hostname);
   writeDatagram Mdns.IPv6 (probe Mdns.IPv6 hostname)].

(** The server after one rename: the counter one higher, the name built
    from the host name and the old value of the counter. *)
Definition renamed (env : Env) (s : MdnsServer) : MdnsServer :=
  set_mHostname
    (QString.arg (QString.arg "%1%2.local." (localHostName env))
       (QString.argInt "-%1" (mHostnameSuffix s)))
    (set_mHostnameSuffix (mHostnameSuffix s + 1) s).

(** A datagram is a conflict for the server: it decodes to a response that
    has a record disqualifying the current candidate name. *)
Definition isConflict (s : MdnsServer) (d : Datagram) : bool :=
  match fromPacket d with
  | Some message =>
      MdnsMessage.isResponse message
      && existsb (disqualifies (mHostname s)) (MdnsMessage.records message)
  | None => false
  end.

(** Every datagram of the sequence is a conflict for the server as it is
    when the datagram arrives. *)
Fixpoint conflictsInTurn (env : Env) (s : MdnsServer) (ds : list Datagram) : bool :=
  match ds with
  | [] => true
  | d :: rest =>
      isConflict s d && conflictsInTurn env (stateOf (onReadyRead env d s)) rest
  end.

(** Whether [bindSocket] gets the socket bound, by one of its attempts. *)
Definition binds (env : Env) (socket : Mdns.Protocol) : bool :=
  if Q_OS_UNIX env
  then bindShareAddress env socket || bindReuseAddressHint env socket
  else bindReuseAddressHint env socket.

(** The first two statements of [onSocketTimeout]: each socket that is not
    bound is passed to [bindSocket]. *)
Definition bindBoth (env : Env) : M unit :=
  s <- get ;;
  when (negb (SocketState_eqb (mIpv4Socket s) BoundState))
    (bindSocket env Mdns.IPv4 AnyIPv4) ;;
  s <- get ;;
  when (negb (SocketState_eqb (mIpv6Socket s) BoundState))
    (bindSocket env Mdns.IPv6 AnyIPv6).

(** The calls of [joinMulticastGroup] that one rebind cycle makes, given
    which sockets are bound. *)
Definition joins (env : Env) (ipv4Bound ipv6Bound : bool) : list Effect :=
  flat_map
    (fun interface =>
       if canMulticast interface then
         (if ipv4Bound && scanFamily IPv6Protocol (allAddresses env)
          then [joinMulticastGroup Mdns.IPv4 Mdns.Ipv4Address interface] else [])
         ++ (if ipv6Bound && scanFamily IPv6Protocol (allAddresses env)
             then [joinMulticastGroup Mdns.IPv6 Mdns.Ipv6Address interface] else [])
       else [])
    (allInterfaces env).

(** The assignments that start a claim in [onSocketTimeout]. *)
Definition startProbing (env : Env) (s : MdnsServer) : MdnsServer :=
  set_mHostnameTimer (QTimer.start (2 * 1000))
    (set_mHostnameSuffix 2
       (set_mHostname (localHostName env ++ ".local.") s)).

Definition isError (e : Effect) : bool :=
  match e with
  | error _ => true
  | _ => false
  end.

(** The interface has an address of the family among its own entries. *)
Definition hasAddressOf (p : NetworkLayerProtocol) (interface : QNetworkInterface.t) : bool :=
  existsb
    (fun entry =>
       NetworkLayerProtocol_eqb (QHostAddress.protocol (QNetworkAddressEntry.ip entry)) p)
    (QNetworkInterface.addressEntries interface).

(** The records that a generation attempt adds to a reply. *)
Definition recordsOf (generated : option MdnsRecord.t) : list MdnsRecord.t :=
  match generated with
  | Some record => [record]
  | None => []
  end.

(** Some query of the list names [hostname] with the type [type]. *)
Definition asksFor (hostname : string) (type : Z) (queries : list MdnsQuery.t) : bool :=
  existsb
    (fun query =>
       String.eqb (MdnsQuery.name query) hostname && (MdnsQuery.type query =? type))
    queries.

Definition isWriteDatagram (e : Effect) : bool :=
  match e with
  | writeDatagram _ _ => true
  | _ => false
  end.

(** ** A host to run the server on

    A laptop with two interfaces on the same network 192.168.1.0/24: eth0
    with the IPv4 address 192.168.1.5 only, wlan0 with 192.168.1.6 and the
    link-local IPv6 address fe80::6.  Both are up and multicast-capable;
    binding succeeds at once. *)
Module Example.

Definition upMulticast : Z :=
  Z.lor QNetworkInterface.IsUp
    (Z.lor QNetworkInterface.IsRunning
       (Z.lor QNetworkInterface.CanBroadcast QNetworkInterface.CanMulticast)).

Definition ip_192_168_1_5 : QHostAddress := Ipv4 0xC0A80105.
Definition ip_192_168_1_6 : QHostAddress := Ipv4 0xC0A80106.
Definition ip_192_168_1_7 : QHostAddress := Ipv4 0xC0A80107.
Definition ip_fe80_6 : QHostAddress := Ipv6 (Z.shiftl 0xFE80 112 + 6).

Definition eth0 : QNetworkInterface.t :=
  QNetworkInterface.mk "eth0" upMulticast
    [QNetworkAddressEntry.mk ip_192_168_1_5 24].

Definition wlan0 : QNetworkInterface.t :=
  QNetworkInterface.mk "wlan0" upMulticast
    [QNetworkAddressEntry.mk ip_192_168_1_6 24;
     QNetworkAddressEntry.mk ip_fe80_6 64].

Definition laptop : Env :=
  mkEnv "laptop" [eth0; wlan0] [ip_192_168_1_5; ip_192_168_1_6; ip_fe80_6]
    true (fun _ => true) (fun _ => false) (fun _ => true).


(** A neighbour at 192.168.1.7 answers that it holds [name] with a live
    A record; the same response also carries a live AAAA record for
    [next]. *)
Definition conflictFor (name next : string) : Datagram :=
  mkDatagram ip_192_168_1_7 Mdns.Port
    (Some (MdnsMessage.mk NullAddress Mdns.IPv4 0 true []
             [MdnsRecord.mk name Mdns.A 120 ip_192_168_1_7;
              MdnsRecord.mk next Mdns.AAAA 120 ip_fe80_6])).

(** The neighbour says goodbye to [name]: a response whose record has
    TTL 0. *)
Definition goodbyeFor (name : string) : Datagram :=
  mkDatagram ip_192_168_1_7 Mdns.Port
    (Some (MdnsMessage.mk NullAddress Mdns.IPv4 0 true []
             [MdnsRecord.mk name Mdns.A 0 ip_192_168_1_7])).

(** The neighbour asks for the records of [name] with the given types. *)
Definition queryFor (name : string) (types : list Z) : Datagram :=
  mkDatagram ip_192_168_1_7 Mdns.Port
    (Some (MdnsMessage.mk NullAddress Mdns.IPv4 0 false
             (map (MdnsQuery.mk name) types) [])).

(** The server right after its construction on the laptop, and once its
    name is confirmed. *)
Definition probing : MdnsServer := stateOf (MdnsServer_new laptop 0).
Definition confirmed : MdnsServer :=
  stateOf (run [TimePasses 2000; HostnameTimerFires] probing).

End Example.

(** ** The accessor and the notions used to state the further properties *)

(** [MdnsServer::hostname]. *)
Definition hostname (s : MdnsServer) : string := mHostname s.

Definition socketOf (p : Mdns.Protocol) (s : MdnsServer) : SocketState :=
  match p with
  | Mdns.IPv4 => mIpv4Socket s
  | Mdns.IPv6 => mIpv6Socket s
  end.

Definition isActive (timer : QTimer.t) : bool :=
  match timer with
  | Some _ => true
  | None => false
  end.

(** What the event loop can deliver to the server: a timer fires only while
    it is active, and a datagram is read only when one of the sockets is
    bound. *)
Definition possible (ev : Event) (s : MdnsServer) : bool :=
  match ev with
  | SocketTimerFires _ => isActive (mSocketTimer s)
  | HostnameTimerFires => isActive (mHostnameTimer s)
  | DatagramReady _ _ =>
      SocketState_eqb (mIpv4Socket s) BoundState
      || SocketState_eqb (mIpv6Socket s) BoundState
  | TimePasses _ => true
  end.

Fixpoint possibleRun (evs : list Event) (s : MdnsServer) : bool :=
  match evs with
  | [] => true
  | ev :: rest => possible ev s && possibleRun rest (stateOf (handle ev s))
  end.

(** The machine is called [h] whenever the event asks the system for its
    name. *)
Definition hostNamed (h : string) (ev : Event) : bool :=
  match ev with
  | SocketTimerFires env => String.eqb (localHostName env) h
  | DatagramReady env _ => String.eqb (localHostName env) h
  | HostnameTimerFires => true
  | TimePasses _ => true
  end.

(** The datagrams among the effects. *)
Fixpoint datagramsOf (effects : list Effect) : list MdnsMessage.t :=
  match effects with
  | [] => []
  | writeDatagram _ message :: rest => message :: datagramsOf rest
  | _ :: rest => datagramsOf rest
  end.

(** Two servers that agree on everything, or on everything but the counter
    while no socket is bound, the name is not confirmed and the probe timer
    is not running. *)
Definition agreeUpToCounter (s1 s2 : MdnsServer) : Prop :=
  s1 = s2
  \/ (mIpv4Socket s1 = UnconnectedState
      /\ mIpv6Socket s1 = UnconnectedState
      /\ mHostnameConfirmed s1 = false
      /\ mHostnameTimer s1 = None
      /\ s2 = set_mHostnameSuffix (mHostnameSuffix s2) s1).

(** The hostname of a server on the machine [h]: none yet, while no socket
    is bound, or the name of the machine, with or without a number that the
    counter has passed, followed by [.local.]. *)
Definition namedAfter (h : string) (s : MdnsServer) : Prop :=
  (mIpv4Socket s = UnconnectedState
   /\ mIpv6Socket s = UnconnectedState
   /\ mHostnameConfirmed s = false
   /\ mHostnameTimer s = None
   /\ mHostname s = "")
  \/ (2 <= mHostnameSuffix s
      /\ (mHostname s = (h ++ ".local.")%string
          \/ exists k, 2 <= k < mHostnameSuffix s
                       /\ mHostname s
                          = (h ++ "-" ++ QString.number k ++ ".local.")%string)).

(** A machine whose name holds a place marker of [QString::arg] (the system
    call that sets the name of a Linux machine takes any bytes), with the
    interface eth0 and binds that succeed. *)
Definition hostWithMarker : Env :=
  mkEnv "a%1b" [Example.eth0] [Example.ip_192_168_1_5]
    true (fun _ => true) (fun _ => false) (fun _ => true).

(** * Properties *)

(** ** QString::arg on the strings of the server *)
Module QStringFacts.
Import QString.

Lemma scan_noPercent (h t : string) :
  noPercent h = true -> scan 0 (h ++ t) = lits h ++ scan 0 t.
Proof.
  induction h as [|c h IH]; intros H; [reflexivity|].
  cbn in H. apply andb_true_iff in H as [Hc Hh].
  apply negb_true_iff in Hc.
  cbn [append scan]. rewrite Hc. cbn [lits app]. now rewrite IH.
Qed.

Lemma minEscape_lits (h : string) acc ps :
  minEscape acc (lits h ++ ps) = minEscape acc ps.
Proof. induction h; cbn; auto. Qed.

Lemma replace_lits m a (h : string) ps :
  replace m a (lits h ++ ps) = (h ++ replace m a ps)%string.
Proof. induction h as [|c h IH]; cbn; [reflexivity|now rewrite IH]. Qed.

Lemma append_empty_r (s : string) : (s ++ "")%string = s.
Proof. induction s as [|c s IH]; cbn; [reflexivity|now rewrite IH]. Qed.

(** With a host name that has no percent sign the two chained calls
    concatenate. *)
Lemma arg_chain (h suffix : string) :
  noPercent h = true ->
  arg (arg "%1%2.local." h) suffix = (h ++ suffix ++ ".local.")%string.
Proof.
  intros H.
  replace (arg "%1%2.local." h) with (h ++ "%2.local.")%string by reflexivity.
  unfold arg. rewrite (scan_noPercent h "%2.local." H).
  replace (scan 0 "%2.local.") with (Escape 2 "%2" :: lits ".local.")
    by reflexivity.
  rewrite minEscape_lits. cbn [minEscape lits optMin].
  rewrite replace_lits. cbn [replace lits Nat.eqb]. reflexivity.
Qed.

Lemma argInt_dash (n : Z) : argInt "-%1" n = ("-" ++ number n)%string.
Proof.
  unfold argInt, arg.
  replace (scan 0 "-%1") with [Lit "-"%char; Escape 1 "%1"] by reflexivity.
  cbn [minEscape optMin replace Nat.eqb]. now rewrite append_empty_r.
Qed.

End QStringFacts.

(** ** Running handlers *)

Lemma stateOf_bind {A B : Type} (m : M A) (f : A -> M B) (s : MdnsServer) :
  stateOf (bind m f s) = stateOf (f (fst (fst (m s))) (stateOf (m s))).
Proof.
  unfold bind, stateOf. destruct (m s) as [[a s1] e1]; cbn.
  now destruct (f a s1) as [[b s2] e2].
Qed.

Lemma effectsOf_bind {A B : Type} (m : M A) (f : A -> M B) (s : MdnsServer) :
  effectsOf (bind m f s)
  = effectsOf (m s) ++ effectsOf (f (fst (fst (m s))) (stateOf (m s))).
Proof.
  unfold bind, stateOf, effectsOf. destruct (m s) as [[a s1] e1]; cbn.
  now destruct (f a s1) as [[b s2] e2].
Qed.

Lemma bind_assoc {A B C : Type} (m : M A) (f : A -> M B) (g : B -> M C)
    (s : MdnsServer) :
  bind (bind m f) g s = bind m (fun a => bind (f a) g) s.
Proof.
  unfold bind. destruct (m s) as [[a s1] e1].
  destruct (f a s1) as [[b s2] e2]. destruct (g b s2) as [[c s3] e3].
  now rewrite app_assoc.
Qed.

Lemma bind_get {B : Type} (f : MdnsServer -> M B) (s : MdnsServer) :
  bind get f s = f s s.
Proof. unfold bind, get. now destruct (f s s) as [[b s2] e2]. Qed.

Lemma bind_congr {A B : Type} (m : M A) (f g : A -> M B) (s : MdnsServer) :
  (forall a s', f a s' = g a s') -> bind m f s = bind m g s.
Proof. intros H. unfold bind. destruct (m s) as [[a s1] e1]. now rewrite H. Qed.

Lemma unit_result (r : unit * MdnsServer * list Effect) :
  r = (tt, stateOf r, effectsOf r).
Proof. now destruct r as [[[] s] e]. Qed.

Lemma checkHostname_eq (protocol : Mdns.Protocol) (s : MdnsServer) :
  checkHostname protocol s
  = (tt, s, [writeDatagram protocol (probe protocol (mHostname s))]).
Proof. now destruct protocol. Qed.

Lemma onReadyRead_records_eq (env : Env) (records : list MdnsRecord.t) (s : MdnsServer) :
  onReadyRead_records env records s
  = if existsb (disqualifies (mHostname s)) records
    then (tt, renamed env s, probes (mHostname (renamed env s)))
    else (tt, s, []).
Proof.
  induction records as [|record rest IH]; [reflexivity|].
  cbn [onReadyRead_records existsb]. unfold bind at 1. cbn [get].
  destruct (disqualifies (mHostname s) record); cbn [orb].
  - reflexivity.
  - rewrite IH. now destruct (existsb _ rest).
Qed.

(** What [onReadyRead] does while the name is not confirmed. *)
Lemma onReadyRead_probing (env : Env) (d : Datagram) (s : MdnsServer) :
  mHostnameConfirmed s = false ->
  onReadyRead env d s
  = if isConflict s d
    then (tt, renamed env s, probes (mHostname (renamed env s)))
    else (tt, s, []).
Proof.
  intros Hc. unfold onReadyRead, isConflict.
  destruct (fromPacket d) as [decoded|]; [|reflexivity].
  unfold bind. cbn [get]. rewrite Hc.
  cbn [MdnsMessage.isResponse MdnsMessage.records MdnsMessage.setPort
       MdnsMessage.setProtocol MdnsMessage.setAddress].
  destruct (MdnsMessage.isResponse decoded); cbn [andb].
  - rewrite onReadyRead_records_eq.
    now destruct (existsb _ _).
  - reflexivity.
Qed.

(** ** The hostname claimer *)

Lemma run_cons (ev : Event) (evs : list Event) (s : MdnsServer) :
  stateOf (run (ev :: evs) s) = stateOf (run evs (stateOf (handle ev s))).
Proof. unfold run. cbn [foreach]. now rewrite stateOf_bind. Qed.

Section Claimer.

Variable env : Env.
Hypothesis hostNameHasNoMarker : QString.noPercent (localHostName env) = true.

Lemma renamed_hostname (s : MdnsServer) :
  mHostname (renamed env s)
  = (localHostName env ++ "-" ++ QString.number (mHostnameSuffix s) ++ ".local.")%string.
Proof.
  unfold renamed. cbn [mHostname set_mHostname].
  rewrite QStringFacts.arg_chain by assumption.
  now rewrite QStringFacts.argInt_dash.
Qed.

(** A run of conflicts: the counter goes up by one with each datagram, and
    the name is the one built from the counter as it was before the last
    of them. *)
Lemma conflicts_run (ds : list Datagram) (s : MdnsServer) :
  mHostnameConfirmed s = false ->
  conflictsInTurn env s ds = true ->
  let s' := stateOf (run (map (DatagramReady env) ds) s) in
  mHostnameConfirmed s' = false
  /\ mHostnameSuffix s' = mHostnameSuffix s + Z.of_nat (List.length ds)
  /\ (ds <> [] ->
      mHostname s'
      = (localHostName env ++ "-"
         ++ QString.number (mHostnameSuffix s + Z.of_nat (List.length ds) - 1)
         ++ ".local.")%string).
Proof.
  revert s. induction ds as [|d rest IH]; intros s Hc Hds s'.
  - subst s'. cbn. repeat split; [assumption|lia|congruence].
  - cbn [conflictsInTurn] in Hds. apply andb_true_iff in Hds as [Hd Hrest].
    subst s'. cbn [map]. rewrite run_cons. cbn [handle].
    rewrite onReadyRead_probing in Hrest |- * by assumption.
    rewrite Hd in Hrest |- *. cbn [stateOf fst snd] in Hrest |- *.
    destruct (IH (renamed env s) Hc Hrest) as (Hc' & Hs' & Hn').
    cbn [mHostnameSuffix renamed set_mHostname set_mHostnameSuffix] in Hs', Hn'.
    split; [assumption|]. split.
    + rewrite Hs'. cbn [List.length]. lia.
    + intros _. destruct rest as [|d' rest'].
      * cbn [map List.length]. unfold run. cbn [foreach ret stateOf fst snd].
        rewrite renamed_hostname.
        now replace (mHostnameSuffix s + Z.of_nat 1 - 1) with (mHostnameSuffix s) by lia.
      * rewrite Hn' by discriminate.
        now replace (mHostnameSuffix s + 1 + Z.of_nat (List.length (d' :: rest')) - 1)
          with (mHostnameSuffix s + Z.of_nat (List.length (d :: d' :: rest')) - 1)
          by (cbn [List.length]; lia).
Qed.

End Claimer.

(** ** The network binder *)

Lemma bindSocket_state (env : Env) (socket : Mdns.Protocol) (a : QHostAddress)
    (s : MdnsServer) :
  stateOf (bindSocket env socket a s)
  = if binds env socket then set_socketOf socket BoundState s else s.
Proof.
  unfold bindSocket, binds.
  destruct (Q_OS_UNIX env), (bindShareAddress env socket),
    (setsockoptFails env socket), (bindReuseAddressHint env socket);
    reflexivity.
Qed.

Lemma bindSocket_effects (env : Env) (socket : Mdns.Protocol) (a : QHostAddress)
    (s : MdnsServer) :
  forallb isError (effectsOf (bindSocket env socket a s)) = true.
Proof.
  unfold bindSocket.
  destruct (Q_OS_UNIX env), (bindShareAddress env socket),
    (setsockoptFails env socket), (bindReuseAddressHint env socket);
    reflexivity.
Qed.

(** Binding changes the two socket fields only, and only towards bound. *)
Lemma bindBoth_state (env : Env) (s : MdnsServer) :
  stateOf (bindBoth env s)
  = set_mIpv6Socket
      (if SocketState_eqb (mIpv6Socket s) BoundState || binds env Mdns.IPv6
       then BoundState else UnconnectedState)
      (set_mIpv4Socket
         (if SocketState_eqb (mIpv4Socket s) BoundState || binds env Mdns.IPv4
          then BoundState else UnconnectedState)
         s).
Proof.
  unfold bindBoth. rewrite stateOf_bind. cbn [get fst snd stateOf].
  rewrite stateOf_bind, stateOf_bind. cbn [get fst snd].
  change (snd (fst ?r)) with (stateOf r).
  destruct s as [t1 t2 s4 s6 h c n]. cbn [mIpv4Socket mIpv6Socket].
  destruct s4, s6; cbn -[bindSocket binds];
    rewrite ?bindSocket_state; destruct (binds env Mdns.IPv4);
    cbn -[bindSocket binds]; rewrite ?bindSocket_state;
    destruct (binds env Mdns.IPv6); reflexivity.
Qed.

Lemma bindBoth_effects (env : Env) (s : MdnsServer) :
  forallb isError (effectsOf (bindBoth env s)) = true.
Proof.
  unfold bindBoth. rewrite effectsOf_bind. cbn [get fst snd effectsOf app].
  rewrite effectsOf_bind, effectsOf_bind. cbn [get fst snd effectsOf app].
  rewrite forallb_app. apply andb_true_iff. split.
  - destruct (negb _); [apply bindSocket_effects|reflexivity].
  - destruct (negb (SocketState_eqb (mIpv6Socket _) _));
      [apply bindSocket_effects|reflexivity].
Qed.

Lemma foreach_joins (env : Env) (ipv4Bound ipv6Bound : bool)
    (interfaces : list QNetworkInterface.t) (s : MdnsServer) :
  foreach interfaces (fun interface =>
    when (canMulticast interface)
      (when (ipv4Bound && scanFamily IPv6Protocol (allAddresses env))
         (emit (joinMulticastGroup Mdns.IPv4 Mdns.Ipv4Address interface)) ;;
       when (ipv6Bound && scanFamily IPv6Protocol (allAddresses env))
         (emit (joinMulticastGroup Mdns.IPv6 Mdns.Ipv6Address interface)))) s
  = (tt, s,
     flat_map
       (fun interface =>
          if canMulticast interface then
            (if ipv4Bound && scanFamily IPv6Protocol (allAddresses env)
             then [joinMulticastGroup Mdns.IPv4 Mdns.Ipv4Address interface] else [])
            ++ (if ipv6Bound && scanFamily IPv6Protocol (allAddresses env)
                then [joinMulticastGroup Mdns.IPv6 Mdns.Ipv6Address interface] else [])
          else [])
       interfaces).
Proof.
  revert s. induction interfaces as [|interface rest IH]; intros s; [reflexivity|].
  cbn [foreach flat_map]. unfold bind at 1.
  destruct (canMulticast interface),
    (ipv4Bound && scanFamily IPv6Protocol (allAddresses env)),
    (ipv6Bound && scanFamily IPv6Protocol (allAddresses env));
    cbn [when bind emit ret app]; now rewrite IH.
Qed.

Lemma onSocketTimeout_bindBoth (env : Env) (s : MdnsServer) :
  onSocketTimeout env s
  = (bindBoth env ;;
     s <- get ;;
     let ipv4Bound := SocketState_eqb (mIpv4Socket s) BoundState in
     let ipv6Bound := SocketState_eqb (mIpv6Socket s) BoundState in
     when (ipv4Bound || ipv6Bound)
       (foreach (allInterfaces env) (fun interface =>
          when (canMulticast interface)
            (when (ipv4Bound && scanFamily IPv6Protocol (allAddresses env))
               (emit (joinMulticastGroup Mdns.IPv4 Mdns.Ipv4Address interface)) ;;
             when (ipv6Bound && scanFamily IPv6Protocol (allAddresses env))
               (emit (joinMulticastGroup Mdns.IPv6 Mdns.Ipv6Address interface)))) ;;
        s <- get ;;
        when (negb (mHostnameConfirmed s))
          (modify (set_mHostname (localHostName env ++ ".local.")) ;;
           modify (set_mHostnameSuffix 2) ;;
           checkHostname Mdns.IPv4 ;;
           checkHostname Mdns.IPv6 ;;
           modify (set_mHostnameTimer (QTimer.start (2 * 1000))))) ;;
     modify (set_mSocketTimer (QTimer.start (60 * 1000)))) s.
Proof.
  unfold onSocketTimeout, bindBoth. cbv zeta.
  rewrite bind_assoc, !bind_get, bind_assoc.
  apply bind_congr. intros _ s1.
  now rewrite bind_assoc, !bind_get.
Qed.

(** [onSocketTimeout], statement by statement. *)
Lemma onSocketTimeout_eq (env : Env) (s : MdnsServer) :
  let s2 := stateOf (bindBoth env s) in
  let ipv4Bound := SocketState_eqb (mIpv4Socket s2) BoundState in
  let ipv6Bound := SocketState_eqb (mIpv6Socket s2) BoundState in
  onSocketTimeout env s
  = (tt,
     set_mSocketTimer (QTimer.start (60 * 1000))
       (if ipv4Bound || ipv6Bound
        then if mHostnameConfirmed s2 then s2 else startProbing env s2
        else s2),
     effectsOf (bindBoth env s)
     ++ (if ipv4Bound || ipv6Bound
         then joins env ipv4Bound ipv6Bound
              ++ (if mHostnameConfirmed s2 then []
                  else probes (localHostName env ++ ".local."))
         else [])).
Proof.
  intros s2 ipv4Bound ipv6Bound.
  rewrite onSocketTimeout_bindBoth. unfold bind at 1.
  rewrite (unit_result (bindBoth env s)). fold s2.
  rewrite bind_get. cbv zeta. fold ipv4Bound ipv6Bound.
  unfold bind at 1.
  destruct (ipv4Bound || ipv6Bound); cbn [when].
  - unfold bind at 1. rewrite foreach_joins. fold (joins env ipv4Bound ipv6Bound).
    rewrite bind_get.
    destruct (mHostnameConfirmed s2); cbn [negb when].
    + cbn. now rewrite !app_nil_r.
    + unfold bind. cbn [modify]. rewrite !checkHostname_eq. cbn.
      rewrite !app_nil_r. reflexivity.
  - cbn. now rewrite !app_nil_r.
Qed.

(** ** The record generator *)

Lemma generateRecord_addresses_eq (hostname : string) (type : Z)
    (entry : QNetworkAddressEntry.t) (addresses : list QHostAddress) :
  generateRecord_addresses hostname type entry addresses
  = if existsb (fun address => familyMatches address type) addresses
    then Some (MdnsRecord.mk hostname type DefaultTtl (QNetworkAddressEntry.ip entry))
    else None.
Proof.
  induction addresses as [|address rest IH]; [reflexivity|].
  cbn [generateRecord_addresses existsb].
  now destruct (familyMatches address type).
Qed.

Lemma generateRecord_entries_some (env : Env) (hostname : string)
    (address : QHostAddress) (type : Z) (entries : list QNetworkAddressEntry.t)
    (record : MdnsRecord.t) :
  generateRecord_entries env hostname address type entries = Some record ->
  exists entry,
    In entry entries
    /\ QHostAddress.isInSubnet address (QNetworkAddressEntry.ip entry)
         (QNetworkAddressEntry.prefixLength entry) = true
    /\ existsb (fun a => familyMatches a type) (allAddresses env) = true
    /\ record = MdnsRecord.mk hostname type DefaultTtl (QNetworkAddressEntry.ip entry).
Proof.
  induction entries as [|entry rest IH]; [discriminate|].
  cbn [generateRecord_entries].
  destruct (QHostAddress.isInSubnet address _ _) eqn:Hsub.
  - rewrite generateRecord_addresses_eq.
    destruct (existsb _ (allAddresses env)) eqn:Hfam; [|discriminate].
    intros [= <-]. exists entry. cbn [In]. auto.
  - intros H. destruct (IH H) as (e & Hin & Hrest). exists e. cbn [In]. auto.
Qed.

Lemma generateRecord_interfaces_some (env : Env) (hostname : string)
    (address : QHostAddress) (type : Z) (interfaces : list QNetworkInterface.t)
    (record : MdnsRecord.t) :
  generateRecord_interfaces env hostname address type interfaces = Some record ->
  exists interface entry,
    In interface interfaces
    /\ In entry (QNetworkInterface.addressEntries interface)
    /\ QHostAddress.isInSubnet address (QNetworkAddressEntry.ip entry)
         (QNetworkAddressEntry.prefixLength entry) = true
    /\ existsb (fun a => familyMatches a type) (allAddresses env) = true
    /\ record = MdnsRecord.mk hostname type DefaultTtl (QNetworkAddressEntry.ip entry).
Proof.
  induction interfaces as [|interface rest IH]; [discriminate|].
  cbn [generateRecord_interfaces].
  destruct (generateRecord_entries env hostname address type _) as [r|] eqn:He.
  - intros [= <-]. apply generateRecord_entries_some in He as (e & Hin & Hrest).
    exists interface, e. cbn [In]. auto.
  - intros H. destruct (IH H) as (i & e & Hi & Hrest). exists i, e. cbn [In]. auto.
Qed.

(** ** The query responder *)

Lemma sendMessage_eq (message : MdnsMessage.t) (s : MdnsServer) :
  sendMessage message s
  = (tt, s, [writeDatagram (MdnsMessage.protocol message) message]).
Proof. unfold sendMessage. now destruct (MdnsMessage.protocol message). Qed.

Lemma scanQueries_from (hostname : string) (type : Z) (queries : list MdnsQuery.t)
    (found : bool) :
  fold_left
    (fun found query =>
       if String.eqb (MdnsQuery.name query) hostname
       then found || (MdnsQuery.type query =? type)
       else found)
    queries found
  = found || asksFor hostname type queries.
Proof.
  revert found. induction queries as [|query rest IH]; intros found.
  - cbn. now rewrite orb_false_r.
  - cbn [fold_left asksFor existsb]. rewrite IH. fold (asksFor hostname type rest).
    destruct (String.eqb (MdnsQuery.name query) hostname); cbn [andb orb];
      [now rewrite orb_assoc|reflexivity].
Qed.

Lemma scanQueries_asksFor (hostname : string) (type : Z) (queries : list MdnsQuery.t) :
  scanQueries hostname type queries = asksFor hostname type queries.
Proof. unfold scanQueries. now rewrite scanQueries_from. Qed.

Lemma onMessageReceived_eq (env : Env) (message : MdnsMessage.t) (s : MdnsServer) :
  let generated type :=
    if asksFor (mHostname s) type (MdnsMessage.queries message)
    then generateRecord env s (MdnsMessage.address message) type
    else None in
  let reply :=
    MdnsMessage.mk (MdnsMessage.address message) (MdnsMessage.protocol message)
      (MdnsMessage.port message) true []
      (recordsOf (generated Mdns.A) ++ recordsOf (generated Mdns.AAAA)) in
  onMessageReceived env message s
  = (tt, s,
     if MdnsMessage.isResponse message then []
     else match generated Mdns.A, generated Mdns.AAAA with
          | None, None => []
          | _, _ => [writeDatagram (MdnsMessage.protocol message) reply]
          end).
Proof.
  intros generated reply. subst reply generated. cbv beta.
  unfold onMessageReceived.
  destruct (MdnsMessage.isResponse message); [reflexivity|].
  cbn [negb when]. rewrite bind_get. cbv zeta.
  rewrite !scanQueries_asksFor.
  destruct (asksFor (mHostname s) Mdns.A _);
    destruct (asksFor (mHostname s) Mdns.AAAA _); cbn [orb when];
    try destruct (generateRecord env s (MdnsMessage.address message) Mdns.A);
    try destruct (generateRecord env s (MdnsMessage.address message) Mdns.AAAA);
    cbn [MdnsMessage.reply MdnsMessage.addRecord MdnsMessage.records
         MdnsMessage.address MdnsMessage.protocol MdnsMessage.port
         MdnsMessage.isResponse MdnsMessage.queries
         List.length app Nat.eqb negb when recordsOf];
    rewrite ?sendMessage_eq; reflexivity.
Qed.


(** ** Facts about the handlers that the claims share *)

Lemma bindBoth_frame (env : Env) (s : MdnsServer) :
  let s2 := stateOf (bindBoth env s) in
  mHostname s2 = mHostname s
  /\ mHostnameConfirmed s2 = mHostnameConfirmed s
  /\ mHostnameSuffix s2 = mHostnameSuffix s
  /\ mHostnameTimer s2 = mHostnameTimer s.
Proof. cbv zeta. rewrite bindBoth_state. now destruct s. Qed.

(** The rebind cycle of a server whose name is not confirmed, when a socket
    is bound after the binding step. *)
Lemma onSocketTimeout_probing (env : Env) (s : MdnsServer) :
  mHostnameConfirmed s = false ->
  let s' := stateOf (onSocketTimeout env s) in
  (mIpv4Socket s' = BoundState \/ mIpv6Socket s' = BoundState) ->
  onSocketTimeout env s
  = (tt,
     set_mSocketTimer (QTimer.start (60 * 1000))
       (startProbing env (stateOf (bindBoth env s))),
     effectsOf (bindBoth env s)
     ++ joins env
          (SocketState_eqb (mIpv4Socket (stateOf (bindBoth env s))) BoundState)
          (SocketState_eqb (mIpv6Socket (stateOf (bindBoth env s))) BoundState)
     ++ probes (localHostName env ++ ".local.")).
Proof.
  intros Hc s' Hb. subst s'. rewrite onSocketTimeout_eq in Hb |- *.
  destruct (bindBoth_frame env s) as (_ & Hc2 & _). rewrite Hc2, Hc in Hb |- *.
  cbn [stateOf fst snd] in Hb.
  destruct (SocketState_eqb (mIpv4Socket (stateOf (bindBoth env s))) BoundState) eqn:E4,
    (SocketState_eqb (mIpv6Socket (stateOf (bindBoth env s))) BoundState) eqn:E6;
    cbn [orb] in Hb |- *; try reflexivity.
  exfalso. cbn [mIpv4Socket mIpv6Socket set_mSocketTimer] in Hb.
  destruct Hb as [Hb|Hb]; rewrite Hb in *; discriminate.
Qed.

(** The rebind cycle of a server whose name is confirmed. *)
Lemma onSocketTimeout_confirmed (env : Env) (s : MdnsServer) :
  mHostnameConfirmed s = true ->
  stateOf (onSocketTimeout env s)
  = set_mSocketTimer (QTimer.start (60 * 1000)) (stateOf (bindBoth env s)).
Proof.
  intros Hc. rewrite onSocketTimeout_eq.
  destruct (bindBoth_frame env s) as (_ & Hc2 & _). rewrite Hc2, Hc.
  cbn [stateOf fst snd]. now destruct (_ || _).
Qed.

Lemma onMessageReceived_state (env : Env) (message : MdnsMessage.t) (s : MdnsServer) :
  stateOf (onMessageReceived env message s) = s.
Proof. now rewrite onMessageReceived_eq. Qed.

Lemma onReadyRead_confirmed (env : Env) (d : Datagram) (s : MdnsServer) :
  mHostnameConfirmed s = true ->
  stateOf (onReadyRead env d s) = s.
Proof.
  intros Hc. unfold onReadyRead.
  destruct (fromPacket d) as [decoded|]; [|reflexivity].
  rewrite bind_get, Hc. apply onMessageReceived_state.
Qed.

Lemma handle_confirmed (ev : Event) (s : MdnsServer) :
  mHostnameConfirmed s = true ->
  mHostname (stateOf (handle ev s)) = mHostname s
  /\ mHostnameConfirmed (stateOf (handle ev s)) = true.
Proof.
  intros Hc. destruct ev as [env| |env d|msec]; cbn [handle].
  - rewrite stateOf_bind. cbn [modify stateOf fst snd].
    rewrite onSocketTimeout_confirmed by (now destruct s).
    destruct (bindBoth_frame env (set_mSocketTimer QTimer.inactive s)) as (Hh & Hc2 & _).
    cbn [mHostname mHostnameConfirmed set_mSocketTimer] in *.
    now rewrite Hh, Hc2.
  - now destruct s.
  - now rewrite onReadyRead_confirmed.
  - now destruct s.
Qed.

(** ** The claims *)

(** On a machine whose name has no percent sign, the character of the place
    markers of [QString::arg]: a server that started probing in a rebind
    cycle and then receives N conflict responses in a row, N at least 1
    (each datagram decodes to a response with at least one record that
    disqualifies the candidate name of the moment, whatever else it holds),
    has the candidate name [<localname>-<N+1>.local.] and the counter N + 2:
    each message renames exactly once. *)
Theorem nth_conflict_candidate_name (env : Env) (s0 : MdnsServer) (ds : list Datagram) :
  QString.noPercent (localHostName env) = true ->
  mHostnameConfirmed s0 = false ->
  let probing := stateOf (onSocketTimeout env s0) in
  (mIpv4Socket probing = BoundState \/ mIpv6Socket probing = BoundState) ->
  conflictsInTurn env probing ds = true ->
  ds <> [] ->
  let N := Z.of_nat (List.length ds) in
  let s' := stateOf (run (map (DatagramReady env) ds) probing) in
  mHostname s'
  = (localHostName env ++ "-" ++ QString.number (N + 1) ++ ".local.")%string
  /\ mHostnameSuffix s' = N + 2
  /\ mHostnameConfirmed s' = false.
Proof.
  intros Hname Hc probing Hb Hds Hne N s'.
  assert (Hp : mHostnameConfirmed probing = false /\ mHostnameSuffix probing = 2).
  { subst probing. rewrite onSocketTimeout_probing by assumption.
    destruct (bindBoth_frame env s0) as (_ & Hc2 & _).
    cbn [stateOf fst snd mHostnameConfirmed mHostnameSuffix set_mSocketTimer
         startProbing set_mHostnameTimer set_mHostnameSuffix set_mHostname].
    now rewrite Hc2. }
  destruct Hp as [Hpc Hps].
  destruct (conflicts_run env Hname ds probing Hpc Hds) as (Hc' & Hs' & Hn').
  fold s' in Hc', Hs', Hn'. fold N in Hs', Hn'. rewrite Hps in Hs', Hn'.
  split; [|split; [lia|assumption]].
  rewrite (Hn' Hne). now replace (2 + N - 1) with (N + 1) by lia.
Qed.

Lemma nth_conflict_candidate_name_witness :
  let ds := [Example.conflictFor "laptop.local." "laptop-2.local.";
             Example.conflictFor "laptop-2.local." "laptop-3.local."] in
  let s' := stateOf (run (map (DatagramReady Example.laptop) ds)
                       (stateOf (onSocketTimeout Example.laptop (constructed 0)))) in
  mHostname s' = "laptop-3.local." /\ mHostnameSuffix s' = 4
  /\ mHostnameConfirmed s' = false.
Proof.
  apply (nth_conflict_candidate_name Example.laptop (constructed 0)
           [Example.conflictFor "laptop.local." "laptop-2.local.";
            Example.conflictFor "laptop-2.local." "laptop-3.local."]).
  - reflexivity.
  - reflexivity.
  - left. reflexivity.
  - reflexivity.
  - discriminate.
Defined.

(** C1.  On a machine named [a%1b] the first conflict while probing does not
    give the candidate name [a%1b-2.local.]: the rebind cycle, which appends
    to the machine name, probes for [a%1b.local.], and the conflict handler,
    which chains two calls of [QString::arg], has the second call replace
    the marker [%1] inside the machine name, so that the candidate becomes
    [a-2b%2.local.]. *)
Theorem place_marker_in_host_name_breaks_rename :
  let probing := stateOf (onSocketTimeout hostWithMarker (constructed 0)) in
  let d := Example.conflictFor "a%1b.local." "a%1b-2.local." in
  let s' := stateOf (run [DatagramReady hostWithMarker d] probing) in
  localHostName hostWithMarker = "a%1b"
  /\ mHostnameConfirmed probing = false
  /\ mIpv4Socket probing = BoundState
  /\ mHostname probing = "a%1b.local."
  /\ conflictsInTurn hostWithMarker probing [d] = true
  /\ mHostname s' = "a-2b%2.local."
  /\ mHostname s' <> "a%1b-2.local."
  /\ mHostnameSuffix s' = 3.
Proof. cbv zeta. repeat split; try reflexivity. vm_compute. discriminate. Qed.

(** C2.  From a state whose name is confirmed, no sequence of events (the
    rebind timer, the probe timer, a datagram, time passing) changes the
    hostname, and the name stays confirmed. *)
Theorem confirmed_hostname_is_immutable (evs : list Event) (s : MdnsServer) :
  mHostnameConfirmed s = true ->
  mHostname (stateOf (run evs s)) = mHostname s
  /\ mHostnameConfirmed (stateOf (run evs s)) = true.
Proof.
  revert s. induction evs as [|ev rest IH]; intros s Hc.
  - now split.
  - rewrite run_cons. destruct (handle_confirmed ev s Hc) as [Hh Hc'].
    destruct (IH _ Hc') as [Hh'' Hc'']. split; [congruence|assumption].
Qed.

Lemma confirmed_hostname_is_immutable_witness :
  let evs := [DatagramReady Example.laptop
                (Example.conflictFor "laptop.local." "laptop-2.local.");
              SocketTimerFires Example.laptop;
              HostnameTimerFires;
              DatagramReady Example.laptop
                (Example.queryFor "laptop.local." [Mdns.A])] in
  mHostnameConfirmed Example.confirmed = true
  /\ mHostname (stateOf (run evs Example.confirmed)) = "laptop.local."
  /\ mHostnameConfirmed (stateOf (run evs Example.confirmed)) = true.
Proof.
  split; [reflexivity|].
  apply (confirmed_hostname_is_immutable
           [DatagramReady Example.laptop
              (Example.conflictFor "laptop.local." "laptop-2.local.");
            SocketTimerFires Example.laptop;
            HostnameTimerFires;
            DatagramReady Example.laptop
              (Example.queryFor "laptop.local." [Mdns.A])]
           Example.confirmed).
  reflexivity.
Defined.

(** C3.  [onReadyRead] never starts a timer: in every state and for every
    datagram both timers are after the handler as they were before it.  On
    the laptop, a conflict that arrives 1999 ms after the probes renames the
    host and sends the two probes again, and the probe timer still has the
    1 ms left that it had; when it fires, the new name is confirmed 1 ms
    after its probes went out. *)
Theorem conflict_leaves_probe_timer_running :
  (forall (env : Env) (d : Datagram) (s : MdnsServer),
      mHostnameTimer (stateOf (onReadyRead env d s)) = mHostnameTimer s
      /\ mSocketTimer (stateOf (onReadyRead env d s)) = mSocketTimer s)
  /\ (let late := stateOf (run [TimePasses 1999] Example.probing) in
      let r := onReadyRead Example.laptop
                 (Example.conflictFor "laptop.local." "laptop-2.local.") late in
      let after := stateOf (run [TimePasses 1; HostnameTimerFires] (stateOf r)) in
      mHostnameConfirmed late = false
      /\ mHostnameTimer late = Some 1
      /\ mHostname (stateOf r) = "laptop-2.local."
      /\ effectsOf r = probes "laptop-2.local."
      /\ mHostnameTimer (stateOf r) = Some 1
      /\ mHostname after = "laptop-2.local."
      /\ mHostnameConfirmed after = true).
Proof.
  split.
  - intros env d s. destruct (mHostnameConfirmed s) eqn:Hc.
    + now rewrite onReadyRead_confirmed.
    + rewrite onReadyRead_probing by assumption.
      destruct (isConflict s d); now destruct s.
  - cbv zeta. repeat split; reflexivity.
Qed.

Lemma generateRecord_entries_none (env : Env) (hostname : string)
    (address : QHostAddress) (type : Z) (entries : list QNetworkAddressEntry.t) :
  generateRecord_entries env hostname address type entries = None
  <-> (forall entry, In entry entries ->
         QHostAddress.isInSubnet address (QNetworkAddressEntry.ip entry)
           (QNetworkAddressEntry.prefixLength entry) = false)
      \/ existsb (fun a => familyMatches a type) (allAddresses env) = false.
Proof.
  induction entries as [|entry rest IH]; cbn [generateRecord_entries].
  - split; [intros _; left; intros entry []|reflexivity].
  - destruct (QHostAddress.isInSubnet address (QNetworkAddressEntry.ip entry)
                (QNetworkAddressEntry.prefixLength entry)) eqn:Hsub.
    + rewrite generateRecord_addresses_eq.
      destruct (existsb _ (allAddresses env)); split; auto; try discriminate.
      intros [Hnone|Hf]; [|discriminate].
      specialize (Hnone entry (or_introl eq_refl)). congruence.
    + rewrite IH. split; (intros [Hnone|Hf]; [left|now right]).
      * intros e [<-|Hin]; auto.
      * intros e Hin. apply Hnone. now right.
Qed.

(** C4.  On the laptop a neighbour at 192.168.1.7 asks for the AAAA record.
    The first interface with an entry whose subnet holds the asker is eth0
    (192.168.1.5/24), which has no IPv6 address; [generateRecord] returns
    true all the same, with an AAAA record that carries the IPv4 address of
    eth0, because the scan for the family runs over [allAddresses()], the
    addresses of the whole host. *)
Theorem first_matched_interface_without_family_still_answers :
  nth_error (allInterfaces Example.laptop) 0 = Some Example.eth0
  /\ QNetworkInterface.addressEntries Example.eth0
     = [QNetworkAddressEntry.mk Example.ip_192_168_1_5 24]
  /\ QHostAddress.isInSubnet Example.ip_192_168_1_7 Example.ip_192_168_1_5 24 = true
  /\ hasAddressOf IPv6Protocol Example.eth0 = false
  /\ generateRecord Example.laptop Example.confirmed Example.ip_192_168_1_7 Mdns.AAAA
     = Some (MdnsRecord.mk "laptop.local." Mdns.AAAA 3600 Example.ip_192_168_1_5).
Proof. repeat split; reflexivity. Qed.

(** When [generateRecord] fails: every interface either has no address entry
    whose subnet holds the asker or has the scan for an address of the
    requested family find none. *)
Lemma generateRecord_fails_iff (env : Env) (s : MdnsServer) (address : QHostAddress)
    (type : Z) :
  generateRecord env s address type = None
  <-> forall interface, In interface (allInterfaces env) ->
        (forall entry, In entry (QNetworkInterface.addressEntries interface) ->
           QHostAddress.isInSubnet address (QNetworkAddressEntry.ip entry)
             (QNetworkAddressEntry.prefixLength entry) = false)
        \/ existsb (fun a => familyMatches a type) (allAddresses env) = false.
Proof.
  unfold generateRecord.
  induction (allInterfaces env) as [|interface rest IH];
    cbn [generateRecord_interfaces].
  - split; [intros _ interface []|reflexivity].
  - destruct (generateRecord_entries env (mHostname s) address type
                (QNetworkInterface.addressEntries interface)) as [record|] eqn:He.
    + split; [discriminate|]. intros Hall.
      specialize (Hall interface (or_introl eq_refl)).
      apply generateRecord_entries_none with (hostname := mHostname s) in Hall.
      congruence.
    + rewrite IH. apply generateRecord_entries_none in He. split.
      * intros Hrest i [<-|Hin]; auto.
      * intros Hall i Hin. apply Hall. now right.
Qed.






(** C6.  A record that [generateRecord] produces has the hostname of the
    server as its name, the requested type, a TTL of 3600 seconds, and as
    its address the IP of an address entry, of one of the interfaces, whose
    subnet holds the asker. *)
Theorem generated_record_fields (env : Env) (s : MdnsServer) (address : QHostAddress)
    (type : Z) (record : MdnsRecord.t) :
  generateRecord env s address type = Some record ->
  MdnsRecord.name record = mHostname s
  /\ MdnsRecord.type record = type
  /\ MdnsRecord.ttl record = 3600
  /\ exists interface entry,
       In interface (allInterfaces env)
       /\ In entry (QNetworkInterface.addressEntries interface)
       /\ QHostAddress.isInSubnet address (QNetworkAddressEntry.ip entry)
            (QNetworkAddressEntry.prefixLength entry) = true
       /\ MdnsRecord.address record = QNetworkAddressEntry.ip entry.
Proof.
  unfold generateRecord. intros H.
  apply generateRecord_interfaces_some in H
    as (interface & entry & Hi & He & Hsub & _ & ->).
  cbn [MdnsRecord.name MdnsRecord.type MdnsRecord.ttl MdnsRecord.address].
  repeat split. exists interface, entry. auto.
Qed.

Lemma generated_record_fields_witness :
  let record := MdnsRecord.mk "laptop.local." Mdns.A 3600 Example.ip_192_168_1_5 in
  generateRecord Example.laptop Example.confirmed Example.ip_192_168_1_7 Mdns.A
  = Some record
  /\ MdnsRecord.name record = mHostname Example.confirmed
  /\ MdnsRecord.type record = Mdns.A
  /\ MdnsRecord.ttl record = 3600
  /\ exists interface entry,
       In interface (allInterfaces Example.laptop)
       /\ In entry (QNetworkInterface.addressEntries interface)
       /\ QHostAddress.isInSubnet Example.ip_192_168_1_7
            (QNetworkAddressEntry.ip entry)
            (QNetworkAddressEntry.prefixLength entry) = true
       /\ MdnsRecord.address record = QNetworkAddressEntry.ip entry.
Proof.
  split; [reflexivity|].
  apply (generated_record_fields Example.laptop Example.confirmed
           Example.ip_192_168_1_7 Mdns.A).
  reflexivity.
Defined.

(** C7.  A confirmed server that reads a datagram holding a non-response
    message keeps its state and writes at most one datagram, the reply; it
    writes one if and only if a record was generated for a requested type (A
    when a query names the hostname with type A, AAAA likewise), and the
    reply carries exactly the records generated.  When no query names the
    hostname, or every requested generation fails, it writes nothing. *)
Theorem reply_iff_record_generated (env : Env) (d : Datagram) (message : MdnsMessage.t)
    (s : MdnsServer) :
  mHostnameConfirmed s = true ->
  fromPacket d = Some message ->
  MdnsMessage.isResponse message = false ->
  let generated type :=
    if existsb
         (fun query =>
            String.eqb (MdnsQuery.name query) (mHostname s)
            && (MdnsQuery.type query =? type))
         (MdnsMessage.queries message)
    then generateRecord env s (sourceAddress d) type
    else None in
  let r := onReadyRead env d s in
  stateOf r = s
  /\ ((exists socket reply, In (writeDatagram socket reply) (effectsOf r))
      <-> (generated Mdns.A <> None \/ generated Mdns.AAAA <> None))
  /\ (forall e, In e (effectsOf r) ->
        exists socket reply,
          effectsOf r = [writeDatagram socket reply]
          /\ e = writeDatagram socket reply
          /\ MdnsMessage.isResponse reply = true
          /\ MdnsMessage.records reply
             = recordsOf (generated Mdns.A) ++ recordsOf (generated Mdns.AAAA))
  /\ ((forall query, In query (MdnsMessage.queries message) ->
         MdnsQuery.name query <> mHostname s) ->
      effectsOf r = []).
Proof.
  intros Hc Hd Hq generated r.
  subst r. unfold onReadyRead. rewrite Hd, bind_get, Hc.
  rewrite onMessageReceived_eq.
  cbn [MdnsMessage.isResponse MdnsMessage.queries MdnsMessage.address
       MdnsMessage.protocol MdnsMessage.port MdnsMessage.setPort
       MdnsMessage.setProtocol MdnsMessage.setAddress].
  rewrite Hq.
  change (if asksFor (mHostname s) Mdns.A (MdnsMessage.queries message)
          then generateRecord env s (sourceAddress d) Mdns.A else None)
    with (generated Mdns.A).
  change (if asksFor (mHostname s) Mdns.AAAA (MdnsMessage.queries message)
          then generateRecord env s (sourceAddress d) Mdns.AAAA else None)
    with (generated Mdns.AAAA).
  cbn [stateOf effectsOf fst snd].
  split; [reflexivity|]. split; [|split].
  - destruct (generated Mdns.A), (generated Mdns.AAAA); split;
      try (intros _; (left + right); discriminate);
      try (intros _; eexists _, _; left; reflexivity).
    + intros (socket & reply & []).
    + intros [H|H]; congruence.
  - intros e He.
    destruct (generated Mdns.A), (generated Mdns.AAAA);
      try (destruct He as [<-|[]]; eexists _, _; repeat split; reflexivity).
    destruct He.
  - intros Hnone.
    assert (Hfalse : forall type, generated type = None).
    { intros type. subst generated. cbv beta.
      replace (existsb _ (MdnsMessage.queries message)) with false; [reflexivity|].
      symmetry. apply not_true_is_false. intros Hex.
      apply existsb_exists in Hex as (query & Hin & Hq').
      apply andb_true_iff in Hq' as [Hn _]. apply String.eqb_eq in Hn.
      now apply (Hnone query). }
    now rewrite !Hfalse.
Qed.

Lemma reply_iff_record_generated_witness :
  let d := Example.queryFor "laptop.local." [Mdns.A; Mdns.AAAA] in
  let r := onReadyRead Example.laptop d Example.confirmed in
  mHostnameConfirmed Example.confirmed = true
  /\ stateOf r = Example.confirmed
  /\ exists socket reply, In (writeDatagram socket reply) (effectsOf r).
Proof.
  cbv zeta. split; [reflexivity|].
  destruct (reply_iff_record_generated Example.laptop
              (Example.queryFor "laptop.local." [Mdns.A; Mdns.AAAA])
              (MdnsMessage.mk NullAddress Mdns.IPv4 0 false
                 (map (MdnsQuery.mk "laptop.local.") [Mdns.A; Mdns.AAAA]) [])
              Example.confirmed eq_refl eq_refl eq_refl)
    as (Hstate & Hsent & _).
  split; [exact Hstate|].
  apply Hsent. left. vm_compute. discriminate.
Defined.

(** C8.  While the name is not confirmed, a datagram in which every record
    of type A or AAAA that bears the candidate name has TTL 0, or which
    does not decode to a response at all, changes nothing: the server is as
    it was, the hostname with it, and nothing is sent.  So only a response
    with a record of type A or AAAA, of the candidate name, with a nonzero
    TTL can change the name. *)
Theorem only_live_matching_response_renames (env : Env) (d : Datagram) (s : MdnsServer) :
  mHostnameConfirmed s = false ->
  (forall message record,
      fromPacket d = Some message ->
      MdnsMessage.isResponse message = true ->
      In record (MdnsMessage.records message) ->
      MdnsRecord.type record = Mdns.A \/ MdnsRecord.type record = Mdns.AAAA ->
      MdnsRecord.name record = mHostname s ->
      MdnsRecord.ttl record = 0) ->
  onReadyRead env d s = (tt, s, []).
Proof.
  intros Hc Hno. rewrite onReadyRead_probing by assumption.
  destruct (isConflict s d) eqn:Hd; [exfalso|reflexivity].
  unfold isConflict in Hd.
  destruct (fromPacket d) as [message|]; [|discriminate].
  apply andb_true_iff in Hd as [Hresp Hex].
  apply existsb_exists in Hex as (record & Hin & Hdis).
  unfold disqualifies in Hdis.
  apply andb_true_iff in Hdis as [Hdis Httl].
  apply andb_true_iff in Hdis as [Htype Hn].
  apply String.eqb_eq in Hn. apply negb_true_iff, Z.eqb_neq in Httl.
  apply Httl, (Hno message record eq_refl Hresp Hin); [|assumption].
  apply orb_true_iff in Htype as [H|H]; apply Z.eqb_eq in H; auto.
Qed.

Lemma only_live_matching_response_renames_witness :
  mHostnameConfirmed Example.probing = false
  /\ mHostname Example.probing = "laptop.local."
  /\ onReadyRead Example.laptop (Example.goodbyeFor "laptop.local.") Example.probing
     = (tt, Example.probing, []).
Proof.
  split; [reflexivity|]. split; [reflexivity|].
  apply (only_live_matching_response_renames Example.laptop
           (Example.goodbyeFor "laptop.local.") Example.probing).
  - reflexivity.
  - intros message record Hm _ Hin _ _.
    injection Hm as <-. destruct Hin as [<-|[]]. reflexivity.
Defined.

(** C9.  A probe round, the two calls of [checkHostname], writes two
    datagrams and changes nothing in the server: on the IPv4 socket a
    message to the IPv4 group and the mDNS port with the one query (name, A)
    and no record, on the IPv6 socket a message to the IPv6 group and the
    mDNS port with the one query (name, AAAA) and no record; neither is a
    response.  These are the datagrams that the rebind cycle writes when it
    starts a claim, for the fresh name, and the ones that [onReadyRead]
    writes on a conflict, for the new name. *)
Theorem probe_round_datagrams :
  let round (hostname : string) : list Effect :=
    [writeDatagram Mdns.IPv4
       (MdnsMessage.mk Mdns.Ipv4Address Mdns.IPv4 Mdns.Port false
          [MdnsQuery.mk hostname Mdns.A] []);
     writeDatagram Mdns.IPv6
       (MdnsMessage.mk Mdns.Ipv6Address Mdns.IPv6 Mdns.Port false
          [MdnsQuery.mk hostname Mdns.AAAA] [])] in
  (forall s : MdnsServer,
      (checkHostname Mdns.IPv4 ;; checkHostname Mdns.IPv6) s
      = (tt, s, round (mHostname s)))
  /\ (forall (env : Env) (s : MdnsServer),
         mHostnameConfirmed s = false ->
         let r := onSocketTimeout env s in
         (mIpv4Socket (stateOf r) = BoundState \/ mIpv6Socket (stateOf r) = BoundState) ->
         filter isWriteDatagram (effectsOf r) = round (mHostname (stateOf r)))
  /\ (forall (env : Env) (d : Datagram) (s : MdnsServer),
         mHostnameConfirmed s = false ->
         isConflict s d = true ->
         let r := onReadyRead env d s in
         effectsOf r = round (mHostname (stateOf r))).
Proof.
  cbv zeta. split; [|split].
  - intros s. unfold bind. now rewrite !checkHostname_eq.
  - intros env s Hc Hb. rewrite onSocketTimeout_probing by assumption.
    cbn [effectsOf stateOf fst snd]. rewrite !filter_app.
    replace (filter isWriteDatagram (effectsOf (bindBoth env s))) with (@nil Effect).
    2:{ pose proof (bindBoth_effects env s) as Hall.
        induction (effectsOf (bindBoth env s)) as [|e l IH]; [reflexivity|].
        cbn [forallb] in Hall. apply andb_true_iff in Hall as [He Hl].
        cbn [filter]. destruct e; try discriminate. now apply IH. }
    replace (filter isWriteDatagram (joins env _ _)) with (@nil Effect).
    2:{ unfold joins. induction (allInterfaces env) as [|i l IH]; [reflexivity|].
        cbn [flat_map]. rewrite filter_app, <- IH, app_nil_r.
        now destruct (canMulticast i), (_ && _), (_ && _). }
    reflexivity.
  - intros env d s Hc Hd. rewrite onReadyRead_probing by assumption.
    now rewrite Hd.
Qed.

Lemma probe_round_datagrams_witness :
  filter isWriteDatagram (effectsOf (onSocketTimeout Example.laptop (constructed 0)))
  = probes "laptop.local."
  /\ effectsOf (onReadyRead Example.laptop
                  (Example.conflictFor "laptop.local." "laptop-2.local.")
                  Example.probing)
     = probes "laptop-2.local.".
Proof.
  destruct probe_round_datagrams as (_ & Hrebind & Hconflict).
  split.
  - apply (Hrebind Example.laptop (constructed 0)).
    + reflexivity.
    + left. reflexivity.
  - apply (Hconflict Example.laptop
             (Example.conflictFor "laptop.local." "laptop-2.local.")
             Example.probing).
    + reflexivity.
    + reflexivity.
Defined.

(** C10.  A rebind cycle on a server whose name is not confirmed, with a
    socket bound once the cycle has tried to bind, sets the hostname to the
    machine name followed by [.local.], the counter to 2 whatever it was,
    and the probe timer to 2 s; the name stays unconfirmed.  On a server
    whose name is confirmed the cycle leaves the hostname, the counter, the
    flag and the probe timer as they were. *)
Theorem rebind_cycle_hostname_state (env : Env) (s : MdnsServer) :
  let s' := stateOf (onSocketTimeout env s) in
  (mHostnameConfirmed s = false ->
   (mIpv4Socket s' = BoundState \/ mIpv6Socket s' = BoundState) ->
   mHostname s' = (localHostName env ++ ".local.")%string
   /\ mHostnameSuffix s' = 2
   /\ mHostnameTimer s' = Some 2000
   /\ mHostnameConfirmed s' = false)
  /\ (mHostnameConfirmed s = true ->
      mHostname s' = mHostname s
      /\ mHostnameSuffix s' = mHostnameSuffix s
      /\ mHostnameTimer s' = mHostnameTimer s
      /\ mHostnameConfirmed s' = true).
Proof.
  cbv zeta. destruct (bindBoth_frame env s) as (Hh & Hc2 & Hs & Ht). split.
  - intros Hc Hb. rewrite onSocketTimeout_probing by assumption.
    cbn [stateOf fst snd mHostname mHostnameSuffix mHostnameTimer
         mHostnameConfirmed set_mSocketTimer startProbing set_mHostnameTimer
         set_mHostnameSuffix set_mHostname QTimer.start].
    repeat split. congruence.
  - intros Hc. rewrite onSocketTimeout_confirmed by assumption.
    cbn [mHostname mHostnameSuffix mHostnameTimer mHostnameConfirmed set_mSocketTimer].
    repeat split; congruence.
Qed.

Lemma rebind_cycle_hostname_state_witness :
  let renamedTwice :=
    stateOf (run [DatagramReady Example.laptop
                    (Example.conflictFor "laptop.local." "laptop-2.local.");
                  DatagramReady Example.laptop
                    (Example.conflictFor "laptop-2.local." "laptop-3.local.")]
               Example.probing) in
  (mHostname renamedTwice = "laptop-3.local."
   /\ mHostnameSuffix renamedTwice = 4
   /\ mHostname (stateOf (onSocketTimeout Example.laptop renamedTwice)) = "laptop.local."
   /\ mHostnameSuffix (stateOf (onSocketTimeout Example.laptop renamedTwice)) = 2
   /\ mHostnameTimer (stateOf (onSocketTimeout Example.laptop renamedTwice)) = Some 2000
   /\ mHostnameConfirmed (stateOf (onSocketTimeout Example.laptop renamedTwice)) = false)
  /\ (mHostname (stateOf (onSocketTimeout Example.laptop Example.confirmed))
      = mHostname Example.confirmed
      /\ mHostnameSuffix (stateOf (onSocketTimeout Example.laptop Example.confirmed))
         = mHostnameSuffix Example.confirmed
      /\ mHostnameTimer (stateOf (onSocketTimeout Example.laptop Example.confirmed))
         = mHostnameTimer Example.confirmed
      /\ mHostnameConfirmed (stateOf (onSocketTimeout Example.laptop Example.confirmed))
         = true).
Proof.
  cbv zeta. split.
  - split; [reflexivity|]. split; [reflexivity|].
    apply (rebind_cycle_hostname_state Example.laptop
             (stateOf (run [DatagramReady Example.laptop
                              (Example.conflictFor "laptop.local." "laptop-2.local.");
                            DatagramReady Example.laptop
                              (Example.conflictFor "laptop-2.local." "laptop-3.local.")]
                         Example.probing))).
    + reflexivity.
    + left. reflexivity.
  - apply (rebind_cycle_hostname_state Example.laptop Example.confirmed).
    reflexivity.
Defined.

(** * Further properties of the server *)

(** ** Binding *)

Lemma bindSocket_errorString (env : Env) (socket socket' : Mdns.Protocol)
    (a : QHostAddress) (s : MdnsServer) :
  In (error (errorString socket')) (effectsOf (bindSocket env socket a s))
  <-> socket' = socket /\ binds env socket = false.
Proof.
  unfold bindSocket, binds.
  destruct (Q_OS_UNIX env), (bindShareAddress env socket),
    (setsockoptFails env socket), (bindReuseAddressHint env socket);
    destruct socket, socket'; cbn; intuition congruence.
Qed.

Lemma bindSocket_effects_same (env : Env) (socket : Mdns.Protocol)
    (a a' : QHostAddress) (s s' : MdnsServer) :
  effectsOf (bindSocket env socket a s) = effectsOf (bindSocket env socket a' s').
Proof.
  unfold bindSocket.
  now destruct (Q_OS_UNIX env), (bindShareAddress env socket),
    (setsockoptFails env socket), (bindReuseAddressHint env socket).
Qed.

Lemma bindBoth_effects_eq (env : Env) (s : MdnsServer) :
  effectsOf (bindBoth env s)
  = (if SocketState_eqb (mIpv4Socket s) BoundState then []
     else effectsOf (bindSocket env Mdns.IPv4 AnyIPv4 s))
    ++ (if SocketState_eqb (mIpv6Socket s) BoundState then []
        else effectsOf (bindSocket env Mdns.IPv6 AnyIPv6 s)).
Proof.
  unfold bindBoth. rewrite effectsOf_bind. cbn [get fst snd effectsOf stateOf app].
  rewrite effectsOf_bind, effectsOf_bind. cbn [get fst snd effectsOf app].
  change (snd (fst ?r)) with (stateOf r).
  f_equal.
  - now destruct (SocketState_eqb (mIpv4Socket s) BoundState).
  - assert (H6 : mIpv6Socket
                   (stateOf (when (negb (SocketState_eqb (mIpv4Socket s) BoundState))
                               (bindSocket env Mdns.IPv4 AnyIPv4) s))
                 = mIpv6Socket s).
    { destruct (SocketState_eqb (mIpv4Socket s) BoundState); cbn [negb when];
        [reflexivity|].
      rewrite bindSocket_state. now destruct (binds env Mdns.IPv4), s. }
    rewrite H6.
    destruct (SocketState_eqb (mIpv6Socket s) BoundState); cbn [negb when];
      [reflexivity|apply bindSocket_effects_same].
Qed.

Lemma SocketState_eqb_Bound (x : SocketState) :
  SocketState_eqb x BoundState = true <-> x = BoundState.
Proof. destruct x; cbn; split; congruence. Qed.

(** The sockets after [onSocketTimeout] are the sockets after its binding
    step. *)
Lemma onSocketTimeout_sockets (env : Env) (s : MdnsServer) (socket : Mdns.Protocol) :
  socketOf socket (stateOf (onSocketTimeout env s))
  = if SocketState_eqb (socketOf socket s) BoundState || binds env socket
    then BoundState else UnconnectedState.
Proof.
  rewrite onSocketTimeout_eq. cbn [stateOf fst snd].
  rewrite !bindBoth_state.
  destruct s as [t1 t2 s4 s6 h c n], socket;
    cbn [socketOf mIpv4Socket mIpv6Socket set_mIpv4Socket set_mIpv6Socket
         mHostnameConfirmed];
    destruct (SocketState_eqb s4 BoundState || binds env Mdns.IPv4),
      (SocketState_eqb s6 BoundState || binds env Mdns.IPv6), c; reflexivity.
Qed.

Lemma onSocketTimeout_errorString (env : Env) (s : MdnsServer) (socket : Mdns.Protocol) :
  In (error (errorString socket)) (effectsOf (onSocketTimeout env s))
  <-> SocketState_eqb (socketOf socket s) BoundState = false
      /\ binds env socket = false.
Proof.
  rewrite onSocketTimeout_eq. cbn [effectsOf snd]. rewrite in_app_iff.
  rewrite bindBoth_effects_eq, in_app_iff.
  assert (Hrest : ~ In (error (errorString socket))
                      (if SocketState_eqb (mIpv4Socket (stateOf (bindBoth env s))) BoundState
                          || SocketState_eqb (mIpv6Socket (stateOf (bindBoth env s))) BoundState
                       then joins env
                              (SocketState_eqb (mIpv4Socket (stateOf (bindBoth env s))) BoundState)
                              (SocketState_eqb (mIpv6Socket (stateOf (bindBoth env s))) BoundState)
                            ++ (if mHostnameConfirmed (stateOf (bindBoth env s)) then []
                                else probes (localHostName env ++ ".local."))
                       else [])).
  { destruct (_ || _); [|intros []]. rewrite in_app_iff. intros [Hj|Hp].
    - unfold joins in Hj. apply in_flat_map in Hj as (i & _ & Hin).
      destruct (canMulticast i); [|destruct Hin].
      destruct (_ && _), (_ && _); cbn in Hin;
        repeat (destruct Hin as [Hin|Hin]; [discriminate|]); destruct Hin.
    - destruct (mHostnameConfirmed _); [destruct Hp|].
      cbn in Hp. destruct Hp as [Hp|[Hp|[]]]; discriminate. }
  split.
  - intros [[H4|H6]|H]; [| |contradiction].
    + destruct (SocketState_eqb (mIpv4Socket s) BoundState) eqn:E; [destruct H4|].
      apply bindSocket_errorString in H4 as [-> Hb]. now split.
    + destruct (SocketState_eqb (mIpv6Socket s) BoundState) eqn:E; [destruct H6|].
      apply bindSocket_errorString in H6 as [-> Hb]. now split.
  - intros [Hu Hb]. left. destruct socket; cbn [socketOf] in Hu; rewrite Hu;
      [left|right]; now apply bindSocket_errorString.
Qed.

(** X1.  [bindSocket] on a socket that is not bound leaves it bound exactly
    when it does not signal the error string of the socket: a bind that
    fails for good is never silent.  When the socket is bound nothing else
    of the server changed, when it is not the server is as it was, and the
    only effects are the two [error] signals. *)
Theorem bindSocket_bound_or_reported (env : Env) (socket : Mdns.Protocol)
    (a : QHostAddress) (s : MdnsServer) :
  socketOf socket s = UnconnectedState ->
  let r := bindSocket env socket a s in
  (socketOf socket (stateOf r) = BoundState
   <-> ~ In (error (errorString socket)) (effectsOf r))
  /\ (socketOf socket (stateOf r) = BoundState ->
      stateOf r = set_socketOf socket BoundState s)
  /\ (socketOf socket (stateOf r) = UnconnectedState -> stateOf r = s)
  /\ (forall e, In e (effectsOf r) ->
        e = error strerror_errno \/ e = error (errorString socket)).
Proof.
  intros Hu r. subst r. rewrite bindSocket_errorString, bindSocket_state.
  split; [|split; [|split]].
  - destruct (binds env socket); split.
    + intros _ [_ H]. discriminate.
    + intros _. now destruct socket, s.
    + intros H. rewrite Hu in H. discriminate.
    + intros H. exfalso. apply H. auto.
  - destruct (binds env socket); [reflexivity|]. rewrite Hu. discriminate.
  - destruct (binds env socket); [|reflexivity].
    destruct socket, s; cbn; discriminate.
  - unfold bindSocket.
    destruct (Q_OS_UNIX env), (bindShareAddress env socket),
      (setsockoptFails env socket), (bindReuseAddressHint env socket);
      cbn; intros e H; repeat (destruct H as [<-|H]; auto); destruct H.
Qed.

Lemma bindSocket_bound_or_reported_witness :
  let failing :=
    mkEnv "laptop" [] [] true (fun _ => false) (fun _ => true) (fun _ => false) in
  let r := bindSocket failing Mdns.IPv4 AnyIPv4 (constructed 0) in
  socketOf Mdns.IPv4 (constructed 0) = UnconnectedState
  /\ stateOf r = constructed 0
  /\ effectsOf r = [error strerror_errno; error (errorString Mdns.IPv4)].
Proof.
  cbv zeta. split; [reflexivity|]. split; [|reflexivity].
  apply (bindSocket_bound_or_reported
           (mkEnv "laptop" [] [] true (fun _ => false) (fun _ => true) (fun _ => false))
           Mdns.IPv4 AnyIPv4 (constructed 0)); reflexivity.
Defined.

Lemma bindBoth_sockets (env : Env) (s : MdnsServer) (socket : Mdns.Protocol) :
  socketOf socket (stateOf (bindBoth env s))
  = if SocketState_eqb (socketOf socket s) BoundState || binds env socket
    then BoundState else UnconnectedState.
Proof.
  rewrite bindBoth_state.
  destruct s as [t1 t2 s4 s6 h c n], socket;
    cbn [socketOf mIpv4Socket mIpv6Socket set_mIpv4Socket set_mIpv6Socket];
    reflexivity.
Qed.

Lemma bindBoth_errorString (env : Env) (s : MdnsServer) (socket : Mdns.Protocol) :
  In (error (errorString socket)) (effectsOf (bindBoth env s))
  <-> SocketState_eqb (socketOf socket s) BoundState = false
      /\ binds env socket = false.
Proof.
  rewrite bindBoth_effects_eq, in_app_iff. split.
  - intros [H4|H6].
    + destruct (SocketState_eqb (mIpv4Socket s) BoundState) eqn:E; [destruct H4|].
      apply bindSocket_errorString in H4 as [-> Hb]. now split.
    + destruct (SocketState_eqb (mIpv6Socket s) BoundState) eqn:E; [destruct H6|].
      apply bindSocket_errorString in H6 as [-> Hb]. now split.
  - intros [Hu Hb]. destruct socket; cbn [socketOf] in Hu; rewrite Hu;
      [left|right]; now apply bindSocket_errorString.
Qed.

(** X2.  The bind attempts that open a rebind cycle (each socket that is not
    bound is passed to [bindSocket]): once they are over a socket is bound
    exactly when it was bound before or one of the attempts made for it
    succeeded (on a Unix system the one that shares the address or the one
    with the reuse hint, elsewhere the latter only), and the error string
    of a socket has been signalled exactly when the socket was not bound
    and no attempt succeeded: a socket that is bound is not bound again. *)
Theorem rebind_cycle_binds_unbound_sockets (env : Env) (s : MdnsServer)
    (socket : Mdns.Protocol) :
  let r := bindBoth env s in
  let attempt :=
    if Q_OS_UNIX env
    then bindShareAddress env socket || bindReuseAddressHint env socket
    else bindReuseAddressHint env socket in
  (socketOf socket (stateOf r) = BoundState
   <-> socketOf socket s = BoundState \/ attempt = true)
  /\ (In (error (errorString socket)) (effectsOf r)
      <-> socketOf socket s = UnconnectedState /\ attempt = false).
Proof.
  cbv zeta. fold (binds env socket).
  rewrite bindBoth_sockets, bindBoth_errorString. split.
  - destruct (socketOf socket s), (binds env socket); cbn; split;
      auto; try discriminate; intros [H|H]; discriminate.
  - destruct (socketOf socket s), (binds env socket); cbn; split;
      auto; intros [H1 H2]; discriminate.
Qed.

(** X3.  A rebind cycle after which neither socket is bound does nothing
    but signal errors, the error string of each socket among them, and
    start the rebind timer again: it joins no group, writes no datagram and
    leaves the hostname, the counter, the flag and the probe timer alone. *)
Theorem rebind_cycle_without_socket (env : Env) (s : MdnsServer) :
  let r := onSocketTimeout env s in
  mIpv4Socket (stateOf r) = UnconnectedState ->
  mIpv6Socket (stateOf r) = UnconnectedState ->
  stateOf r = set_mSocketTimer (Some 60000) s
  /\ forallb isError (effectsOf r) = true
  /\ In (error (errorString Mdns.IPv4)) (effectsOf r)
  /\ In (error (errorString Mdns.IPv6)) (effectsOf r).
Proof.
  cbv zeta. intros H4 H6.
  pose proof (onSocketTimeout_sockets env s Mdns.IPv4) as E4.
  pose proof (onSocketTimeout_sockets env s Mdns.IPv6) as E6.
  cbn [socketOf] in E4, E6. rewrite H4 in E4. rewrite H6 in E6.
  destruct (SocketState_eqb (mIpv4Socket s) BoundState || binds env Mdns.IPv4) eqn:B4;
    [discriminate|].
  destruct (SocketState_eqb (mIpv6Socket s) BoundState || binds env Mdns.IPv6) eqn:B6;
    [discriminate|].
  apply orb_false_iff in B4 as [U4 N4]. apply orb_false_iff in B6 as [U6 N6].
  split; [|split; [|split]].
  - rewrite onSocketTimeout_eq. cbn [stateOf fst snd].
    rewrite !bindBoth_state, U4, U6, N4, N6.
    destruct s as [t1 t2 s4 s6 h c n]. cbn in U4, U6.
    destruct s4, s6; try discriminate. reflexivity.
  - rewrite onSocketTimeout_eq. cbn [effectsOf snd].
    rewrite !bindBoth_state, U4, U6, N4, N6.
    cbn [orb mIpv4Socket mIpv6Socket set_mIpv4Socket set_mIpv6Socket SocketState_eqb].
    rewrite app_nil_r. apply bindBoth_effects.
  - apply onSocketTimeout_errorString. now split.
  - apply onSocketTimeout_errorString. now split.
Qed.

Lemma rebind_cycle_without_socket_witness :
  let failing :=
    mkEnv "laptop" [Example.eth0] [Example.ip_192_168_1_5]
      true (fun _ => false) (fun _ => false) (fun _ => false) in
  stateOf (onSocketTimeout failing (constructed 0))
  = set_mSocketTimer (Some 60000) (constructed 0)
  /\ forallb isError (effectsOf (onSocketTimeout failing (constructed 0))) = true
  /\ In (error (errorString Mdns.IPv4)) (effectsOf (onSocketTimeout failing (constructed 0)))
  /\ In (error (errorString Mdns.IPv6)) (effectsOf (onSocketTimeout failing (constructed 0))).
Proof.
  apply (rebind_cycle_without_socket
           (mkEnv "laptop" [Example.eth0] [Example.ip_192_168_1_5]
              true (fun _ => false) (fun _ => false) (fun _ => false))
           (constructed 0)); reflexivity.
Defined.

(** ** What the handlers keep *)

Lemma onReadyRead_state (env : Env) (d : Datagram) (s : MdnsServer) :
  stateOf (onReadyRead env d s) = s
  \/ (mHostnameConfirmed s = false /\ isConflict s d = true
      /\ stateOf (onReadyRead env d s) = renamed env s).
Proof.
  destruct (mHostnameConfirmed s) eqn:Hc.
  - left. now apply onReadyRead_confirmed.
  - rewrite onReadyRead_probing by assumption.
    destruct (isConflict s d); [right|left]; auto.
Qed.

Lemma handle_socketOf (ev : Event) (s : MdnsServer) (socket : Mdns.Protocol) :
  socketOf socket s = BoundState ->
  socketOf socket (stateOf (handle ev s)) = BoundState.
Proof.
  intros Hb. destruct ev as [env| |env d|msec]; cbn [handle].
  - rewrite stateOf_bind. cbn [modify stateOf fst snd].
    rewrite onSocketTimeout_sockets.
    replace (socketOf socket (set_mSocketTimer QTimer.inactive s))
      with (socketOf socket s) by (now destruct socket, s).
    now rewrite Hb.
  - now destruct socket, s.
  - destruct (onReadyRead_state env d s) as [->|(_ & _ & ->)];
      [assumption|now destruct socket, s].
  - now destruct socket, s.
Qed.

(** X4.  The server never gives a socket up: a socket that is bound is
    bound after every sequence of events. *)
Theorem bound_socket_stays_bound (socket : Mdns.Protocol) (evs : list Event)
    (s : MdnsServer) :
  socketOf socket s = BoundState ->
  socketOf socket (stateOf (run evs s)) = BoundState.
Proof.
  revert s. induction evs as [|ev rest IH]; intros s Hb; [assumption|].
  rewrite run_cons. apply IH. now apply handle_socketOf.
Qed.

Lemma bound_socket_stays_bound_witness :
  let failing :=
    mkEnv "laptop" [Example.eth0] [Example.ip_192_168_1_5]
      true (fun _ => false) (fun _ => true) (fun _ => false) in
  socketOf Mdns.IPv6 Example.probing = BoundState
  /\ socketOf Mdns.IPv6
       (stateOf (run [TimePasses 60000; SocketTimerFires failing;
                      DatagramReady failing (Example.goodbyeFor "laptop.local.")]
                   Example.probing))
     = BoundState.
Proof.
  cbv zeta. split; [reflexivity|].
  apply (bound_socket_stays_bound Mdns.IPv6
           [TimePasses 60000;
            SocketTimerFires
              (mkEnv "laptop" [Example.eth0] [Example.ip_192_168_1_5]
                 true (fun _ => false) (fun _ => true) (fun _ => false));
            DatagramReady
              (mkEnv "laptop" [Example.eth0] [Example.ip_192_168_1_5]
                 true (fun _ => false) (fun _ => true) (fun _ => false))
              (Example.goodbyeFor "laptop.local.")]
           Example.probing).
  reflexivity.
Defined.

Lemma onSocketTimeout_mSocketTimer (env : Env) (s : MdnsServer) :
  mSocketTimer (stateOf (onSocketTimeout env s)) = Some 60000.
Proof. now rewrite onSocketTimeout_eq. Qed.

Lemma handle_mSocketTimer (ev : Event) (s : MdnsServer) :
  isActive (mSocketTimer s) = true ->
  isActive (mSocketTimer (stateOf (handle ev s))) = true.
Proof.
  intros Ha. destruct ev as [env| |env d|msec]; cbn [handle].
  - rewrite stateOf_bind. cbn [modify stateOf fst snd].
    now rewrite onSocketTimeout_mSocketTimer.
  - now destruct s.
  - destruct (onReadyRead_state env d s) as [->|(_ & _ & ->)];
      [assumption|now destruct s].
  - destruct s as [[t1|] t2 s4 s6 h c n]; [reflexivity|discriminate].
Qed.

(** X5.  The rebind cycle is always scheduled: from its construction on,
    whatever the outcome of the binds and whatever events follow, the
    rebind timer of the server is active, and right after a cycle it has
    60 s to run. *)
Theorem rebind_timer_always_pending (env : Env) (indeterminate : Z)
    (evs : list Event) :
  isActive (mSocketTimer
              (stateOf (run evs (stateOf (MdnsServer_new env indeterminate)))))
  = true
  /\ forall (env' : Env) (s : MdnsServer),
       mSocketTimer (stateOf (handle (SocketTimerFires env') s)) = Some 60000.
Proof.
  split.
  - assert (H0 : isActive (mSocketTimer (stateOf (MdnsServer_new env indeterminate)))
                 = true)
      by (unfold MdnsServer_new; now rewrite onSocketTimeout_mSocketTimer).
    revert H0. generalize (stateOf (MdnsServer_new env indeterminate)).
    induction evs as [|ev rest IH]; intros s Ha; [assumption|].
    rewrite run_cons. apply IH. now apply handle_mSocketTimer.
  - intros env' s. cbn [handle]. rewrite stateOf_bind.
    apply onSocketTimeout_mSocketTimer.
Qed.

(** X6.  Two rebind cycles in a row, under the same answers of the system,
    leave the server as one does: the second binds nothing more and sets
    the same name, counter and timers again. *)
Theorem rebind_cycle_idempotent (env : Env) (s : MdnsServer) :
  stateOf (onSocketTimeout env (stateOf (onSocketTimeout env s)))
  = stateOf (onSocketTimeout env s).
Proof.
  rewrite !onSocketTimeout_eq. cbn [stateOf fst snd].
  rewrite !bindBoth_state.
  destruct s as [t1 t2 s4 s6 h c n].
  cbn [mIpv4Socket mIpv6Socket set_mIpv4Socket set_mIpv6Socket mHostnameConfirmed].
  destruct s4, s6, (binds env Mdns.IPv4), (binds env Mdns.IPv6), c; reflexivity.
Qed.

(** X7.  Only the probe timer confirms the name: every other event leaves
    the flag [mHostnameConfirmed] as it was, and the probe timer sets it. *)
Theorem only_probe_timer_confirms (ev : Event) (s : MdnsServer) :
  ev <> HostnameTimerFires ->
  mHostnameConfirmed (stateOf (handle ev s)) = mHostnameConfirmed s
  /\ mHostnameConfirmed (stateOf (handle HostnameTimerFires s)) = true.
Proof.
  intros Hev. split; [|reflexivity].
  destruct ev as [env| |env d|msec]; cbn [handle].
  - rewrite stateOf_bind. cbn [modify stateOf fst snd].
    rewrite onSocketTimeout_eq. cbn [stateOf fst snd].
    rewrite !bindBoth_state.
    destruct s as [t1 t2 s4 s6 h c n].
    cbn [mIpv4Socket mIpv6Socket set_mIpv4Socket set_mIpv6Socket
         set_mSocketTimer mHostnameConfirmed].
    now destruct (_ || _), (_ || _), c.
  - contradiction.
  - destruct (onReadyRead_state env d s) as [->|(_ & _ & ->)];
      [reflexivity|now destruct s].
  - now destruct s.
Qed.

Lemma only_probe_timer_confirms_witness :
  mHostnameConfirmed
    (stateOf (handle (DatagramReady Example.laptop
                        (Example.conflictFor "laptop.local." "laptop-2.local."))
                Example.probing))
  = mHostnameConfirmed Example.probing
  /\ mHostnameConfirmed (stateOf (handle HostnameTimerFires Example.probing)) = true.
Proof.
  apply (only_probe_timer_confirms
           (DatagramReady Example.laptop
              (Example.conflictFor "laptop.local." "laptop-2.local."))
           Example.probing).
  discriminate.
Defined.

(** X8.  A confirmed server does nothing at all with a response: whatever
    its records, be it a live record for the very hostname of the server,
    the server is as it was and nothing is sent. *)
Theorem confirmed_server_ignores_responses (env : Env) (d : Datagram)
    (message : MdnsMessage.t) (s : MdnsServer) :
  mHostnameConfirmed s = true ->
  fromPacket d = Some message ->
  MdnsMessage.isResponse message = true ->
  onReadyRead env d s = (tt, s, []).
Proof.
  intros Hc Hd Hr. unfold onReadyRead. rewrite Hd, bind_get, Hc.
  rewrite onMessageReceived_eq.
  cbn [MdnsMessage.isResponse MdnsMessage.setPort MdnsMessage.setProtocol
       MdnsMessage.setAddress].
  now rewrite Hr.
Qed.

Lemma confirmed_server_ignores_responses_witness :
  mHostname Example.confirmed = "laptop.local."
  /\ onReadyRead Example.laptop
       (Example.conflictFor "laptop.local." "laptop-2.local.") Example.confirmed
     = (tt, Example.confirmed, []).
Proof.
  split; [reflexivity|].
  apply (confirmed_server_ignores_responses Example.laptop
           (Example.conflictFor "laptop.local." "laptop-2.local.")
           (MdnsMessage.mk NullAddress Mdns.IPv4 0 true []
              [MdnsRecord.mk "laptop.local." Mdns.A 120 Example.ip_192_168_1_7;
               MdnsRecord.mk "laptop-2.local." Mdns.AAAA 120 Example.ip_fe80_6])
           Example.confirmed); reflexivity.
Defined.

(** ** The record generator, in closed form *)

Lemma find_app_first {A : Type} (f : A -> bool) (l1 l2 : list A) :
  find f (l1 ++ l2)
  = match find f l1 with
    | Some x => Some x
    | None => find f l2
    end.
Proof.
  induction l1 as [|x l1 IH]; [reflexivity|].
  cbn [app find]. now destruct (f x).
Qed.

Lemma generateRecord_entries_eq (env : Env) (hostname : string)
    (address : QHostAddress) (type : Z) (entries : list QNetworkAddressEntry.t) :
  generateRecord_entries env hostname address type entries
  = if existsb (fun a => familyMatches a type) (allAddresses env)
    then option_map
           (fun entry =>
              MdnsRecord.mk hostname type DefaultTtl (QNetworkAddressEntry.ip entry))
           (find
              (fun entry =>
                 QHostAddress.isInSubnet address (QNetworkAddressEntry.ip entry)
                   (QNetworkAddressEntry.prefixLength entry))
              entries)
    else None.
Proof.
  induction entries as [|entry rest IH]; cbn [generateRecord_entries find].
  - now destruct (existsb _ _).
  - destruct (QHostAddress.isInSubnet address _ _).
    + rewrite generateRecord_addresses_eq. now destruct (existsb _ _).
    + exact IH.
Qed.

Lemma generateRecord_interfaces_eq (env : Env) (hostname : string)
    (address : QHostAddress) (type : Z) (interfaces : list QNetworkInterface.t) :
  generateRecord_interfaces env hostname address type interfaces
  = if existsb (fun a => familyMatches a type) (allAddresses env)
    then option_map
           (fun entry =>
              MdnsRecord.mk hostname type DefaultTtl (QNetworkAddressEntry.ip entry))
           (find
              (fun entry =>
                 QHostAddress.isInSubnet address (QNetworkAddressEntry.ip entry)
                   (QNetworkAddressEntry.prefixLength entry))
              (flat_map QNetworkInterface.addressEntries interfaces))
    else None.
Proof.
  induction interfaces as [|interface rest IH];
    cbn [generateRecord_interfaces flat_map find].
  - now destruct (existsb _ _).
  - rewrite generateRecord_entries_eq, IH, find_app_first.
    destruct (existsb _ (allAddresses env)); [|reflexivity].
    now destruct (find _ (QNetworkInterface.addressEntries interface)).
Qed.

(** X9.  [generateRecord] answers with the first address entry, in the
    order of the interfaces and of the entries of each, whose subnet holds
    the asker: when the list of [allAddresses()] has an address of the
    family of the requested type the record carries the IP of that entry,
    and there is a record exactly when there is such an entry; when the
    list has no address of that family there is no record. *)
Theorem generateRecord_first_matching_entry (env : Env) (s : MdnsServer)
    (address : QHostAddress) (type : Z) :
  generateRecord env s address type
  = if existsb (fun a => familyMatches a type) (allAddresses env)
    then match find
                 (fun entry =>
                    QHostAddress.isInSubnet address (QNetworkAddressEntry.ip entry)
                      (QNetworkAddressEntry.prefixLength entry))
                 (flat_map QNetworkInterface.addressEntries (allInterfaces env))
         with
         | Some entry =>
             Some (MdnsRecord.mk (mHostname s) type 3600 (QNetworkAddressEntry.ip entry))
         | None => None
         end
    else None.
Proof.
  unfold generateRecord. rewrite generateRecord_interfaces_eq.
  destruct (existsb _ _); [|reflexivity]. now destruct (find _ _).
Qed.

(** X10.  A record of a type other than A and AAAA is never generated,
    whatever the interfaces and the asker. *)
Theorem generateRecord_other_type_fails (env : Env) (s : MdnsServer)
    (address : QHostAddress) (type : Z) :
  type <> Mdns.A -> type <> Mdns.AAAA ->
  generateRecord env s address type = None.
Proof.
  intros HA HAAAA. unfold generateRecord. rewrite generateRecord_interfaces_eq.
  replace (existsb (fun a => familyMatches a type) (allAddresses env)) with false;
    [reflexivity|].
  symmetry. apply not_true_is_false. intros H.
  apply existsb_exists in H as (a & _ & Hf). unfold familyMatches in Hf.
  apply orb_true_iff in Hf as [Hf|Hf]; apply andb_true_iff in Hf as [_ Hf];
    apply Z.eqb_eq in Hf; contradiction.
Qed.

Lemma generateRecord_other_type_fails_witness :
  generateRecord Example.laptop Example.confirmed Example.ip_192_168_1_7 12 = None.
Proof.
  apply (generateRecord_other_type_fails Example.laptop Example.confirmed
           Example.ip_192_168_1_7 12); discriminate.
Defined.

(** ** What the server writes *)

Lemma filter_writes_errors (l : list Effect) :
  forallb isError l = true -> filter isWriteDatagram l = [].
Proof.
  induction l as [|e l IH]; [reflexivity|].
  cbn [forallb filter]. intros H. apply andb_true_iff in H as [He Hl].
  destruct e; try discriminate. now apply IH.
Qed.

Lemma filter_writes_joins (env : Env) (ipv4Bound ipv6Bound : bool) :
  filter isWriteDatagram (joins env ipv4Bound ipv6Bound) = [].
Proof.
  unfold joins. induction (allInterfaces env) as [|i l IH]; [reflexivity|].
  cbn [flat_map]. rewrite filter_app, IH, app_nil_r.
  destruct (canMulticast i); [|reflexivity].
  now destruct (_ && _), (_ && _).
Qed.

Lemma onSocketTimeout_writes (env : Env) (s : MdnsServer) :
  let s' := stateOf (onSocketTimeout env s) in
  filter isWriteDatagram (effectsOf (onSocketTimeout env s))
  = if (SocketState_eqb (mIpv4Socket s') BoundState
        || SocketState_eqb (mIpv6Socket s') BoundState)
       && negb (mHostnameConfirmed s)
    then probes (mHostname s')
    else [].
Proof.
  cbv zeta. rewrite onSocketTimeout_eq. cbn [stateOf effectsOf fst snd].
  rewrite filter_app, (filter_writes_errors _ (bindBoth_effects env s)).
  cbn [app]. rewrite !bindBoth_state.
  destruct s as [t1 t2 s4 s6 h c n].
  cbn [mIpv4Socket mIpv6Socket set_mIpv4Socket set_mIpv6Socket mHostnameConfirmed].
  destruct (SocketState_eqb s4 BoundState || binds env Mdns.IPv4),
    (SocketState_eqb s6 BoundState || binds env Mdns.IPv6), c;
    cbn [SocketState_eqb orb andb negb mIpv4Socket mIpv6Socket set_mSocketTimer
         startProbing set_mHostnameTimer set_mHostnameSuffix set_mHostname
         mHostname];
    rewrite ?filter_app, ?filter_writes_joins; reflexivity.
Qed.

Lemma run_cons_effects (ev : Event) (evs : list Event) (s : MdnsServer) :
  effectsOf (run (ev :: evs) s)
  = effectsOf (handle ev s) ++ effectsOf (run evs (stateOf (handle ev s))).
Proof. unfold run. cbn [foreach]. now rewrite effectsOf_bind. Qed.

(** Every datagram that a handler writes is a probe for the candidate name,
    written by a server whose name is not confirmed, or a reply with
    records, written by a server whose name is. *)
Lemma handle_writes (ev : Event) (s : MdnsServer) (socket : Mdns.Protocol)
    (message : MdnsMessage.t) :
  In (writeDatagram socket message) (effectsOf (handle ev s)) ->
  socket = MdnsMessage.protocol message
  /\ ((mHostnameConfirmed s = false
       /\ message = probe socket (mHostname (stateOf (handle ev s))))
      \/ (mHostnameConfirmed s = true
          /\ MdnsMessage.records message <> []
          /\ forall record, In record (MdnsMessage.records message) ->
               MdnsRecord.name record = mHostname s
               /\ MdnsRecord.ttl record = 3600
               /\ (MdnsRecord.type record = Mdns.A
                   \/ MdnsRecord.type record = Mdns.AAAA))).
Proof.
  intros Hin. destruct ev as [env| |env d|msec]; cbn [handle] in *.
  - rewrite stateOf_bind. rewrite effectsOf_bind in Hin.
    cbn [modify stateOf effectsOf fst snd app] in *.
    assert (Hw : In (writeDatagram socket message)
                   (filter isWriteDatagram
                      (effectsOf (onSocketTimeout env (set_mSocketTimer QTimer.inactive s)))))
      by (apply filter_In; now split).
    rewrite onSocketTimeout_writes in Hw. cbv zeta in Hw.
    replace (mHostnameConfirmed (set_mSocketTimer QTimer.inactive s))
      with (mHostnameConfirmed s) in Hw by now destruct s.
    destruct (_ || _); [|destruct Hw].
    destruct (mHostnameConfirmed s); [destruct Hw|]. cbn [andb negb] in Hw.
    unfold probes in Hw. cbn [In] in Hw.
    destruct Hw as [[= <- <-]|[[= <- <-]|[]]]; split; auto.
  - destruct Hin.
  - destruct (mHostnameConfirmed s) eqn:Hc.
    + unfold onReadyRead in Hin.
      destruct (fromPacket d) as [decoded|]; [|destruct Hin].
      rewrite bind_get, Hc, onMessageReceived_eq in Hin.
      cbn [effectsOf snd MdnsMessage.isResponse MdnsMessage.queries
           MdnsMessage.address MdnsMessage.protocol MdnsMessage.port
           MdnsMessage.setPort MdnsMessage.setProtocol MdnsMessage.setAddress] in Hin.
      destruct (MdnsMessage.isResponse decoded); [destruct Hin|].
      assert (Hgen : forall type record,
                 type = Mdns.A \/ type = Mdns.AAAA ->
                 (if asksFor (mHostname s) type (MdnsMessage.queries decoded)
                  then generateRecord env s (sourceAddress d) type else None)
                 = Some record ->
                 MdnsRecord.name record = mHostname s
                 /\ MdnsRecord.ttl record = 3600
                 /\ (MdnsRecord.type record = Mdns.A
                     \/ MdnsRecord.type record = Mdns.AAAA)).
      { intros type record Ht Hg.
        destruct (asksFor (mHostname s) type (MdnsMessage.queries decoded));
          [|discriminate].
        unfold generateRecord in Hg.
        apply generateRecord_interfaces_some in Hg as (_ & e & _ & _ & _ & _ & ->).
        cbn. repeat split. exact Ht. }
      destruct (if asksFor (mHostname s) Mdns.A _ then _ else None) as [ra|] eqn:EA;
        destruct (if asksFor (mHostname s) Mdns.AAAA _ then _ else None) as [rb|] eqn:EB;
        try destruct Hin as [[= <- <-]|[]]; try destruct Hin;
        (split; [reflexivity|right; split; [reflexivity|]]);
        cbn [MdnsMessage.records recordsOf app]; (split; [discriminate|]);
        intros record Hr; cbn [In] in Hr;
        repeat (destruct Hr as [<-|Hr];
                [solve [apply (Hgen Mdns.A); auto | apply (Hgen Mdns.AAAA); auto]|]);
        destruct Hr.
    + rewrite onReadyRead_probing in Hin |- * by assumption.
      destruct (isConflict s d); [|destruct Hin].
      cbn [effectsOf stateOf fst snd] in *. unfold probes in Hin. cbn [In] in Hin.
      destruct Hin as [[= <- <-]|[[= <- <-]|[]]]; split; auto.
  - destruct Hin.
Qed.

(** X11.  Whatever the event, a datagram goes out on the socket of its own
    protocol and is one of two things.  From a server whose name is not
    confirmed it is a probe: a message that is no response and has no
    record, with the one query for the candidate name that the handler
    leaves, of type A to the IPv4 group on the IPv4 socket and of type AAAA
    to the IPv6 group on the IPv6 socket, to the mDNS port.  From a server
    whose name is confirmed it has at least one record, and each of its
    records bears the hostname, a TTL of 3600 and the type A or AAAA: the
    server never sends an empty reply and never answers for another name. *)
Theorem written_datagrams_are_probes_or_replies (ev : Event) (s : MdnsServer)
    (socket : Mdns.Protocol) (message : MdnsMessage.t) :
  In (writeDatagram socket message) (effectsOf (handle ev s)) ->
  socket = MdnsMessage.protocol message
  /\ ((mHostnameConfirmed s = false
       /\ message
          = MdnsMessage.mk
              (match socket with
               | Mdns.IPv4 => Mdns.Ipv4Address
               | Mdns.IPv6 => Mdns.Ipv6Address
               end)
              socket Mdns.Port false
              [MdnsQuery.mk (mHostname (stateOf (handle ev s)))
                 (match socket with Mdns.IPv4 => Mdns.A | Mdns.IPv6 => Mdns.AAAA end)]
              [])
      \/ (mHostnameConfirmed s = true
          /\ MdnsMessage.records message <> []
          /\ forall record, In record (MdnsMessage.records message) ->
               MdnsRecord.name record = mHostname s
               /\ MdnsRecord.ttl record = 3600
               /\ (MdnsRecord.type record = Mdns.A
                   \/ MdnsRecord.type record = Mdns.AAAA))).
Proof. intros Hin. exact (handle_writes ev s socket message Hin). Qed.

Lemma written_datagrams_are_probes_or_replies_witness :
  let d := Example.queryFor "laptop.local." [Mdns.A] in
  exists message,
    effectsOf (handle (DatagramReady Example.laptop d) Example.confirmed)
    = [writeDatagram Mdns.IPv4 message]
    /\ Mdns.IPv4 = MdnsMessage.protocol message
    /\ MdnsMessage.records message <> [].
Proof.
  cbv zeta. eexists. split; [reflexivity|].
  destruct (written_datagrams_are_probes_or_replies
              (DatagramReady Example.laptop (Example.queryFor "laptop.local." [Mdns.A]))
              Example.confirmed Mdns.IPv4 _ (or_introl eq_refl))
    as (Hsocket & [(Hc & _)|(_ & Hrecords & _)]).
  - discriminate Hc.
  - split; assumption.
Defined.

(** X12.  Once the name is confirmed the server never probes again: over
    every sequence of events, every datagram it writes carries at least one
    record. *)
Theorem confirmed_server_never_probes (evs : list Event) (s : MdnsServer)
    (socket : Mdns.Protocol) (message : MdnsMessage.t) :
  mHostnameConfirmed s = true ->
  In (writeDatagram socket message) (effectsOf (run evs s)) ->
  MdnsMessage.records message <> [].
Proof.
  revert s. induction evs as [|ev rest IH]; intros s Hc Hin.
  - destruct Hin.
  - rewrite run_cons_effects in Hin. apply in_app_iff in Hin as [Hin|Hin].
    + apply handle_writes in Hin as (_ & [(Hc' & _)|(_ & Hrecords & _)]);
        [congruence|assumption].
    + apply (IH (stateOf (handle ev s))); [|assumption].
      now apply handle_confirmed.
Qed.

Lemma confirmed_server_never_probes_witness :
  let evs := [SocketTimerFires Example.laptop;
              DatagramReady Example.laptop (Example.queryFor "laptop.local." [Mdns.A])] in
  mHostnameConfirmed Example.confirmed = true
  /\ exists message,
       In (writeDatagram Mdns.IPv4 message) (effectsOf (run evs Example.confirmed))
       /\ MdnsMessage.records message <> [].
Proof.
  cbv zeta. split; [reflexivity|].
  assert (Hin : In (writeDatagram Mdns.IPv4
                      (MdnsMessage.mk Example.ip_192_168_1_7 Mdns.IPv4 Mdns.Port true []
                         [MdnsRecord.mk "laptop.local." Mdns.A 3600
                            Example.ip_192_168_1_5]))
                  (effectsOf
                     (run [SocketTimerFires Example.laptop;
                           DatagramReady Example.laptop
                             (Example.queryFor "laptop.local." [Mdns.A])]
                        Example.confirmed)))
    by (vm_compute; tauto).
  eexists. split; [exact Hin|].
  exact (confirmed_server_never_probes _ Example.confirmed Mdns.IPv4 _ eq_refl Hin).
Defined.

(** ** From the construction on *)

Lemma onSocketTimeout_agree (env : Env) (s1 s2 : MdnsServer) :
  agreeUpToCounter s1 s2 ->
  effectsOf (onSocketTimeout env s1) = effectsOf (onSocketTimeout env s2)
  /\ agreeUpToCounter (stateOf (onSocketTimeout env s1))
       (stateOf (onSocketTimeout env s2)).
Proof.
  intros [->|(H4 & H6 & Hc & Ht & Hs)]; [split; [reflexivity|now left]|].
  rewrite !onSocketTimeout_eq. cbn [stateOf effectsOf fst snd].
  rewrite !bindBoth_state, !bindBoth_effects_eq.
  rewrite (bindSocket_effects_same env Mdns.IPv4 AnyIPv4 AnyIPv4 s2 s1).
  rewrite (bindSocket_effects_same env Mdns.IPv6 AnyIPv6 AnyIPv6 s2 s1).
  rewrite Hs. destruct s1 as [t1 t2 s4 s6 h c n].
  cbn in H4, H6, Hc, Ht. subst s4 s6 c t2.
  cbn [mIpv4Socket mIpv6Socket set_mIpv4Socket set_mIpv6Socket mHostnameConfirmed
       set_mHostnameSuffix mSocketTimer mHostnameTimer mHostname mHostnameSuffix
       SocketState_eqb orb].
  destruct (binds env Mdns.IPv4), (binds env Mdns.IPv6);
    cbn [SocketState_eqb orb mIpv4Socket mIpv6Socket mHostnameConfirmed];
    (split; [reflexivity|]);
    try (left; reflexivity).
  right. cbn. repeat split.
Qed.

Lemma handle_agree (ev : Event) (s1 s2 : MdnsServer) :
  agreeUpToCounter s1 s2 ->
  possible ev s1 = true ->
  effectsOf (handle ev s1) = effectsOf (handle ev s2)
  /\ agreeUpToCounter (stateOf (handle ev s1)) (stateOf (handle ev s2))
  /\ possible ev s2 = true.
Proof.
  intros [->|(H4 & H6 & Hc & Ht & Hs)] Hp;
    [split; [reflexivity|split; [now left|assumption]]|].
  destruct ev as [env| |env d|msec]; cbn [handle possible] in *.
  - rewrite !stateOf_bind, !effectsOf_bind. cbn [modify stateOf effectsOf fst snd app].
    destruct (onSocketTimeout_agree env (set_mSocketTimer QTimer.inactive s1)
                (set_mSocketTimer QTimer.inactive s2)) as [He Hr].
    { right. rewrite Hs. destruct s1. cbn in *. repeat split; assumption. }
    split; [exact He|]. split; [exact Hr|].
    rewrite Hs. now destruct s1.
  - rewrite Ht in Hp. discriminate.
  - rewrite H4, H6 in Hp. discriminate.
  - split; [reflexivity|]. split; [|reflexivity].
    right. rewrite Hs. destruct s1. cbn in *. subst. repeat split.
Qed.

(** X13.  The constructor leaves [mHostnameSuffix] without a value; that
    value is never read.  Two servers constructed under the same answers of
    the system, with whatever two values in the counter, write the same at
    their construction and, over every sequence of events that the event
    loop can deliver, write the same, bear the same hostname and are
    confirmed alike. *)
Theorem uninitialised_counter_is_never_read (env : Env) (g1 g2 : Z)
    (evs : list Event) :
  let s1 := stateOf (MdnsServer_new env g1) in
  let s2 := stateOf (MdnsServer_new env g2) in
  possibleRun evs s1 = true ->
  effectsOf (MdnsServer_new env g1) = effectsOf (MdnsServer_new env g2)
  /\ effectsOf (run evs s1) = effectsOf (run evs s2)
  /\ mHostname (stateOf (run evs s1)) = mHostname (stateOf (run evs s2))
  /\ mHostnameConfirmed (stateOf (run evs s1))
     = mHostnameConfirmed (stateOf (run evs s2)).
Proof.
  intros s1 s2 Hp.
  destruct (onSocketTimeout_agree env (constructed g1) (constructed g2))
    as [He0 Hr0]; [right; cbn; repeat split|].
  fold (MdnsServer_new env g1) (MdnsServer_new env g2) in He0, Hr0.
  fold s1 s2 in Hr0. split; [exact He0|].
  clearbody s1 s2. clear He0. revert s1 s2 Hr0 Hp.
  induction evs as [|ev rest IH]; intros s1 s2 Hr Hp.
  - unfold run. cbn [foreach ret effectsOf stateOf fst snd].
    split; [reflexivity|].
    destruct Hr as [->|(_ & _ & _ & _ & ->)]; [now split|now destruct s1].
  - cbn [possibleRun] in Hp. apply andb_true_iff in Hp as [Hp Hrest].
    destruct (handle_agree ev s1 s2 Hr Hp) as (He & Hr' & _).
    rewrite !run_cons_effects, !run_cons, He.
    destruct (IH _ _ Hr' Hrest) as (He' & Hh & Hc).
    now rewrite He'.
Qed.

Lemma uninitialised_counter_is_never_read_witness :
  let evs := [DatagramReady Example.laptop
                (Example.conflictFor "laptop.local." "laptop-2.local.");
              TimePasses 2000; HostnameTimerFires] in
  let s1 := stateOf (MdnsServer_new Example.laptop 0) in
  let s2 := stateOf (MdnsServer_new Example.laptop (-7)) in
  effectsOf (MdnsServer_new Example.laptop 0)
  = effectsOf (MdnsServer_new Example.laptop (-7))
  /\ effectsOf (run evs s1) = effectsOf (run evs s2)
  /\ mHostname (stateOf (run evs s1)) = mHostname (stateOf (run evs s2))
  /\ mHostnameConfirmed (stateOf (run evs s1))
     = mHostnameConfirmed (stateOf (run evs s2)).
Proof.
  apply (uninitialised_counter_is_never_read Example.laptop 0 (-7)
           [DatagramReady Example.laptop
              (Example.conflictFor "laptop.local." "laptop-2.local.");
            TimePasses 2000; HostnameTimerFires]).
  reflexivity.
Defined.

Lemma onSocketTimeout_namedAfter (env : Env) (s : MdnsServer) :
  namedAfter (localHostName env) s ->
  namedAfter (localHostName env) (stateOf (onSocketTimeout env s)).
Proof.
  intros Hn. rewrite onSocketTimeout_eq. cbn [stateOf fst snd].
  rewrite !bindBoth_state. destruct s as [t1 t2 s4 s6 h c n].
  unfold namedAfter in *.
  cbn [mIpv4Socket mIpv6Socket set_mIpv4Socket set_mIpv6Socket mHostnameConfirmed
       mHostnameTimer mHostname mHostnameSuffix] in *.
  destruct (SocketState_eqb s4 BoundState || binds env Mdns.IPv4) eqn:B4,
    (SocketState_eqb s6 BoundState || binds env Mdns.IPv6) eqn:B6, c;
    cbn [SocketState_eqb orb set_mSocketTimer startProbing set_mHostnameTimer
         set_mHostnameSuffix set_mHostname mIpv4Socket mIpv6Socket
         mHostnameConfirmed mHostnameTimer mHostname mHostnameSuffix];
    try (right; split; [lia|left; reflexivity]);
    try (destruct Hn as [(_ & _ & [=] & _)|Hn]; right; exact Hn).
  destruct Hn as [(H4 & H6 & Hc & Ht & Hh)|Hn]; [left|right; exact Hn].
  repeat split; assumption.
Qed.

Lemma handle_namedAfter (h : string) (ev : Event) (s : MdnsServer) :
  QString.noPercent h = true ->
  hostNamed h ev = true ->
  possible ev s = true ->
  namedAfter h s ->
  namedAfter h (stateOf (handle ev s)).
Proof.
  intros Hh Hev Hp Hn. destruct ev as [env| |env d|msec]; cbn [handle hostNamed possible] in *.
  - apply String.eqb_eq in Hev. subst h.
    rewrite stateOf_bind. cbn [modify stateOf fst snd].
    apply onSocketTimeout_namedAfter.
    destruct s; unfold namedAfter in *; cbn in *; exact Hn.
  - destruct Hn as [(_ & _ & _ & Ht & _)|Hn].
    + rewrite Ht in Hp. discriminate.
    + right. destruct s; cbn in *; exact Hn.
  - apply String.eqb_eq in Hev. subst h.
    destruct Hn as [(H4 & H6 & _)|(Hs & Hn)].
    + rewrite H4, H6 in Hp. discriminate.
    + destruct (onReadyRead_state env d s) as [->|(_ & _ & ->)];
        [right; now split|].
      right. rewrite renamed_hostname by assumption.
      cbn [renamed mHostnameSuffix set_mHostname set_mHostnameSuffix].
      split; [lia|]. right. exists (mHostnameSuffix s). split; [lia|reflexivity].
  - destruct s as [t1 t2 s4 s6 hn c n]; unfold namedAfter in *; cbn in *.
    destruct Hn as [(H4 & H6 & Hc & Ht & Hh')|Hn]; [left|right; exact Hn].
    subst. repeat split.
Qed.

(** X14.  On a machine whose name [h] has no percent sign, from the
    construction on and over every sequence of events that the event loop
    can deliver, the hostname of the server is empty, with no socket bound
    and the name not confirmed, or it is [h.local.], or it is [h-k.local.]
    for a number k from 2 on that the counter has passed; so a confirmed
    hostname is never empty. *)
Theorem hostname_is_named_after_the_machine (env : Env) (indeterminate : Z)
    (evs : list Event) :
  QString.noPercent (localHostName env) = true ->
  forallb (hostNamed (localHostName env)) evs = true ->
  possibleRun evs (stateOf (MdnsServer_new env indeterminate)) = true ->
  let s := stateOf (run evs (stateOf (MdnsServer_new env indeterminate))) in
  (hostname s = ""
   /\ mHostnameConfirmed s = false
   /\ mIpv4Socket s = UnconnectedState /\ mIpv6Socket s = UnconnectedState)
  \/ hostname s = (localHostName env ++ ".local.")%string
  \/ exists k, 2 <= k < mHostnameSuffix s
               /\ hostname s
                  = (localHostName env ++ "-" ++ QString.number k ++ ".local.")%string.
Proof.
  intros Hh Hevs Hp s.
  assert (Hn : namedAfter (localHostName env) s).
  { subst s.
    assert (H0 : namedAfter (localHostName env) (stateOf (MdnsServer_new env indeterminate))).
    { apply onSocketTimeout_namedAfter. left. cbn. repeat split. }
    revert H0 Hp. generalize (stateOf (MdnsServer_new env indeterminate)).
    induction evs as [|ev rest IH]; intros s0 H0 Hp; [exact H0|].
    cbn [forallb] in Hevs. apply andb_true_iff in Hevs as [Hev Hrest].
    cbn [possibleRun] in Hp. apply andb_true_iff in Hp as [Hp Hprest].
    rewrite run_cons. apply (IH Hrest); [|assumption].
    now apply handle_namedAfter. }
  unfold hostname.
  destruct Hn as [(H4 & H6 & Hc & _ & Hh')|(_ & [Hn|Hn])]; auto.
Qed.

Lemma hostname_is_named_after_the_machine_witness :
  let s := stateOf (run [DatagramReady Example.laptop
                           (Example.conflictFor "laptop.local." "laptop-2.local.");
                         TimePasses 2000; HostnameTimerFires]
                      (stateOf (MdnsServer_new Example.laptop 0))) in
  hostname s = "laptop-2.local."
  /\ ((hostname s = ""
       /\ mHostnameConfirmed s = false
       /\ mIpv4Socket s = UnconnectedState /\ mIpv6Socket s = UnconnectedState)
      \/ hostname s = "laptop.local."
      \/ exists k, 2 <= k < mHostnameSuffix s
                   /\ hostname s
                      = ("laptop" ++ "-" ++ QString.number k ++ ".local.")%string).
Proof.
  cbv zeta. split; [reflexivity|].
  apply (hostname_is_named_after_the_machine Example.laptop 0
           [DatagramReady Example.laptop
              (Example.conflictFor "laptop.local." "laptop-2.local.");
            TimePasses 2000; HostnameTimerFires]); reflexivity.
Defined.
